(** * Edge.Scraper.Pro: the two d2pbuyersguide.com probe scripts

    A shallow embedding of [src/simple_scraper.py] (module [Simple]) and
    [src/fixed_scraper.py] (module [Fixed]) and the properties of their
    reports.

    Conventions of the embedding.
    - Python [int] is [Z]; [len l] is [Z.of_nat (length l)].
    - Python [str] is [string], one element per character; [s[:k]] is
      [String.substring 0 k s].
    - The dictionaries the scripts build with a fixed set of possible keys
      are records; a key that may be missing is an [option] field and
      [d.get(k, v)] is [default v (k d)].  The tallies of the error
      classifier, whose keys are data, are [gmap]s.
    - The network, the file system and the clock are an abstract world
      threaded through every call; an exception is the [Raise] outcome.
    - [urlparse] and [urljoin] compute without the world; they return or
      raise ([ValueError], an [OtherException] here), and a call outside
      a [try] lets the exception through.
    - [time.sleep], the progress lines printed by the loops and the
      [logging] calls do not influence any value the scripts compute and
      are left out; the lines printed by the persistence step of [main]
      are recorded in [stdout]. *)

From Stdlib Require Import Ascii.
From stdpp Require Import gmap strings list fin_maps pretty.

Open Scope string_scope.
Open Scope list_scope.
Open Scope Z_scope.

(** ** Python preliminaries *)

(** [len(l)] *)
Definition len {A} (l : list A) : Z := Z.of_nat (length l).

(** [len(s)] on a string *)
Definition str_len (s : string) : Z := Z.of_nat (String.length s).

(** [s[:k]] *)
Definition str_take (k : nat) (s : string) : string := String.substring 0 k s.

(** Truth value of a string: the empty string is falsy. *)
Definition str_truthy (s : string) : bool :=
  match s with EmptyString => false | String _ _ => true end.

(** [s.replace(old, new)]: the occurrences of [old] are found from left to
    right without overlap.  [replace_from] copies [s], skipping the [skip]
    characters that are left of an occurrence already replaced. *)
Fixpoint replace_from (old new : string) (skip : nat) (s : string) : string :=
  match s with
  | EmptyString => EmptyString
  | String c s' =>
      match skip with
      | S k => replace_from old new k s'
      | O =>
          if String.prefix old s
          then new +:+ replace_from old new (String.length old - 1)%nat s'
          else String c (replace_from old new 0%nat s')
      end
  end.

(** With an empty [old], Python puts [new] before every character and at
    the end. *)
Fixpoint put_after_each (new s : string) : string :=
  match s with
  | EmptyString => EmptyString
  | String c s' => String c (new +:+ put_after_each new s')
  end.

Definition str_replace (old new s : string) : string :=
  match old with
  | EmptyString => new +:+ put_after_each new s
  | String _ _ => replace_from old new 0%nat s
  end.

(** [p in s] *)
Fixpoint str_contains (p s : string) : bool :=
  match s with
  | EmptyString => String.prefix p s
  | String _ s' => String.prefix p s || str_contains p s'
  end.

(** The newline character and ["=" * 60]. *)
Definition nl : string := String (Ascii.ascii_of_nat 10) EmptyString.

Fixpoint str_repeat (s : string) (n : nat) : string :=
  match n with
  | O => EmptyString
  | S n' => s +:+ str_repeat s n'
  end.

(** The exceptions the scripts can meet.  All of them are subclasses of
    [Exception].  The body of an [HTTPError] has not been read when the
    exception is raised: [fp] tells what [e.read()] will do, and is [None]
    when the exception carries no readable body. *)
Inductive read_result :=
| ReadOk (content : string)
| ReadRaises (msg : string).

Inductive exn :=
| HTTPError (code : Z) (reason : string) (fp : option read_result)
| RequestException (msg : string)
| ZeroDivisionError
| OtherException (msg : string).

(** [str(e)] *)
Definition str_exn (e : exn) : string :=
  match e with
  | HTTPError code reason _ => "HTTP Error " +:+ pretty code +:+ ": " +:+ reason
  | RequestException msg => msg
  | ZeroDivisionError => "division by zero"
  | OtherException msg => msg
  end.

(** Keys of the [status_codes] tally: an [int] status code or the string
    label used when the key is missing. *)
Inductive key :=
| KInt (code : Z)
| KStr (label : string).

Global Instance key_eq_dec : EqDecision key.
Proof. solve_decision. Defined.

Global Instance key_countable : Countable key.
Proof.
  refine (inj_countable'
            (fun k => match k with KInt z => inl z | KStr s => inr s end)
            (fun x => match x with inl z => KInt z | inr s => KStr s end) _).
  by intros [].
Defined.

(** [counts[k] = counts.get(k, 0) + 1] *)
Definition tally `{Countable K} (k : K) (counts : gmap K Z) : gmap K Z :=
  <[k := default 0 (counts !! k) + 1]> counts.

(** The sum of the values of a tally. *)
Definition counts_sum `{Countable K} (counts : gmap K Z) : Z :=
  map_fold (fun _ n acc => n + acc) 0 counts.

Inductive outcome (A : Type) :=
| Return (a : A)
| Raise (e : exn).
Arguments Return {A} a.
Arguments Raise {A} e.

(** ** The state and exception monad of the scripts *)

Section Monad.
Context {W : Type}.

Record state := State { world : W; stdout : list string }.

Definition M (A : Type) : Type := state -> outcome A * state.

Definition ret {A} (a : A) : M A := fun s => (Return a, s).

Definition raise {A} (e : exn) : M A := fun s => (Raise e, s).

Definition bind {A B} (m : M A) (k : A -> M B) : M B :=
  fun s =>
    match m s with
    | (Return a, s') => k a s'
    | (Raise e, s') => (Raise e, s')
    end.

(** [try: body except Exception as e: handler(e)]; what the body did to
    the world before it raised is kept. *)
Definition try_except {A} (body : M A) (handler : exn -> M A) : M A :=
  fun s =>
    match body s with
    | (Return a, s') => (Return a, s')
    | (Raise e, s') => handler e s'
    end.

(** A call into the outside world. *)
Definition call {A} (op : W -> outcome A * W) : M A :=
  fun s =>
    let '(r, w) := op (world s) in
    (r, {| world := w; stdout := stdout s |}).

(** A library function that computes without the world and may raise. *)
Definition pure_call {A} (o : outcome A) : M A := fun s => (o, s).

(** [print(line)] *)
Definition print (line : string) : M unit :=
  fun s => (Return tt, {| world := world s; stdout := stdout s ++ [line] |}).

(** [for x in xs: acc = body(x, acc)] *)
Fixpoint for_each {A S} (xs : list A) (body : A -> S -> M S) (acc : S) : M S :=
  match xs with
  | [] => ret acc
  | x :: xs' => bind (body x acc) (for_each xs' body)
  end.

(** [response.read()] and [e.read()]: what the body read does was fixed
    when the response arrived. *)
Definition read (b : read_result) : M string :=
  match b with
  | ReadOk content => ret content
  | ReadRaises msg => raise (OtherException msg)
  end.
End Monad.

Arguments state W : clear implicits.
Arguments M W A : clear implicits.

Declare Scope py_scope.
Delimit Scope py_scope with py.
Notation "x <- m ; k" := (bind m (fun x => k))
  (at level 20, m at level 100, k at level 200, only parsing) : py_scope.
Notation "m ;; k" := (bind m (fun _ => k))
  (at level 100, k at level 200, only parsing, right associativity) : py_scope.
Open Scope py_scope.

(** ** simple_scraper.py *)

Module Simple.

(** The dictionary returned by [test_url], with the [original_url] key the
    retester adds. *)
Record result := Result {
  url : string;
  status_code : option Z;
  success : bool;
  content_length : option Z;
  content_preview : string;
  headers : option (list (string * string));
  error : option string;
  original_url : option string
}.

(** What [urlopen] hands back when it does not raise. *)
Record response := Response {
  getcode : Z;
  body : read_result;
  response_headers : list (string * string)
}.

Section Scraper.
Context {W : Type}.
(** [urllib.request.urlopen(url, timeout=15)] *)
Variable urlopen : string -> W -> outcome response * W.

Definition test_url (u : string) : M W result :=
  try_except
    (response <- call (urlopen u);
     content <- read (body response);
     ret {| url := u;
            status_code := Some (getcode response);
            success := true;
            content_length := Some (str_len content);
            content_preview :=
              if str_truthy content then str_take 300 content
              else "Empty response";
            headers := Some (response_headers response);
            error := None;
            original_url := None |})
    (fun e =>
       match e with
       | HTTPError code reason fp =>
           preview <- match fp with
                      | Some b => content <- read b; ret (str_take 200 content)
                      | None => ret "No content"
                      end;
           ret {| url := u;
                  status_code := Some code;
                  success := false;
                  content_length := None;
                  content_preview := preview;
                  headers := None;
                  error := Some ("HTTP " +:+ pretty code +:+ ": " +:+ reason);
                  original_url := None |}
       | _ =>
           ret {| url := u;
                  status_code := None;
                  success := false;
                  content_length := None;
                  content_preview := "No content";
                  headers := None;
                  error := Some (str_exn e);
                  original_url := None |}
       end).

(** The [summary] of [explore_site]. *)
Record ExplorationSummary := ExplorationSummary_ {
  total_tested : Z;
  successful : Z;
  failed : Z
}.

Record ExplorationReport := ExplorationReport_ {
  all_tests : list result;
  working_endpoints : list result;
  summary : ExplorationSummary
}.

(** [result.get('success') and result.get('status_code') == 200] *)
Definition is_working (r : result) : bool :=
  success r && bool_decide (status_code r = Some 200).

Definition test_urls (base_domain : string) : list string :=
  [ "https://" +:+ base_domain;
    "http://" +:+ base_domain;
    "https://" +:+ base_domain +:+ "/";
    "https://" +:+ base_domain +:+ "/index.html";
    "https://" +:+ base_domain +:+ "/index.php";
    "https://" +:+ base_domain +:+ "/home";
    "https://" +:+ base_domain +:+ "/main";
    "https://" +:+ base_domain +:+ "/products";
    "https://" +:+ base_domain +:+ "/items";
    "https://" +:+ base_domain +:+ "/guide";
    "https://" +:+ base_domain +:+ "/buyers-guide";
    "https://" +:+ base_domain +:+ "/d2p";
    "https://" +:+ base_domain +:+ "/api";
    "https://" +:+ base_domain +:+ "/search";
    "https://" +:+ base_domain +:+ "/category";
    "https://" +:+ base_domain +:+ "/filter";
    "https://" +:+ base_domain +:+ "/all";
    "https://" +:+ base_domain +:+ "/page/1";
    "https://" +:+ base_domain +:+ "/page1";
    "https://" +:+ base_domain +:+ "/p/1" ].

(** The body of the loop of [explore_site]; the accumulator is
    [(results, working_endpoints)]. *)
Definition explore_step (u : string) (acc : list result * list result)
  : M W (list result * list result) :=
  result <- test_url u;
  let results := acc.1 ++ [result] in
  let working := if is_working result then acc.2 ++ [result] else acc.2 in
  ret (results, working).

(** [explore_site] from the point where [test_urls] is built. *)
Definition explore_urls (urls : list string) : M W ExplorationReport :=
  acc <- for_each urls explore_step ([], []);
  let results := acc.1 in
  let working := acc.2 in
  ret {| all_tests := results;
         working_endpoints := working;
         summary := {| total_tested := len results;
                       successful := len working;
                       failed := len results - len working |} |}.

Definition explore_site (base_domain : string) : M W ExplorationReport :=
  explore_urls (test_urls base_domain).

(** The [summary] of [scrape_original_urls]. *)
Record RetestSummary := RetestSummary_ {
  total : Z;
  n_successful : Z;       (* key 'successful' *)
  n_failed : Z;           (* key 'failed' *)
  success_rate : string
}.

Record RetestReport := RetestReport_ {
  all_results : list result;
  successful_results : list result;   (* key 'successful' *)
  failed_results : list result;       (* key 'failed' *)
  retest_summary : RetestSummary      (* key 'summary' *)
}.

(** [result['original_url'] = url] *)
Definition set_original_url (r : result) (u : string) : result :=
  {| url := url r;
     status_code := status_code r;
     success := success r;
     content_length := content_length r;
     content_preview := content_preview r;
     headers := headers r;
     error := error r;
     original_url := Some u |}.

(** The text of [f"{(a/b*100):.1f}%"] for a non-zero [b]: a float
    division, a float product and their rendering with one decimal. *)
Variable percent_1f : Z -> Z -> string.

(** [f"{(a/b*100):.1f}%"]: [/] raises on a zero divisor. *)
Definition format_success_rate (a b : Z) : M W string :=
  if bool_decide (b = 0) then raise ZeroDivisionError
  else ret (percent_1f a b).

(** The body of the loop of [scrape_original_urls]; the accumulator is
    [(results, successful, failed)]. *)
Definition scrape_step (u : string)
    (acc : list result * list result * list result)
  : M W (list result * list result * list result) :=
  let '(results, successful, failed) := acc in
  let https_url := str_replace "http://" "https://" u in
  result <- test_url https_url;
  let result := set_original_url result u in
  let results := results ++ [result] in
  if is_working result
  then ret (results, successful ++ [result], failed)
  else ret (results, successful, failed ++ [result]).

Definition scrape_original_urls (urls : list string) : M W RetestReport :=
  acc <- for_each urls scrape_step ([], [], []);
  let '(results, successful, failed) := acc in
  rate <- format_success_rate (len successful) (len results);
  ret {| all_results := results;
         successful_results := successful;
         failed_results := failed;
         retest_summary := {| total := len results;
                              n_successful := len successful;
                              n_failed := len failed;
                              success_rate := rate |} |}.

Record ErrorAnalysis := ErrorAnalysis_ {
  error_types : gmap string Z;
  status_codes : gmap key Z;
  total_failures : Z
}.

Definition analyze_errors (failed_results : list result) : ErrorAnalysis :=
  let tallies :=
    foldl (fun (acc : gmap string Z * gmap key Z) result =>
             let error := default "Unknown" (error result) in
             let status :=
               from_option KInt (KStr "Unknown") (status_code result) in
             (tally error acc.1, tally status acc.2))
          (∅, ∅) failed_results in
  {| error_types := tallies.1;
     status_codes := tallies.2;
     total_failures := len failed_results |}.

Definition generate_recommendations
    (exploration_results : ExplorationReport)
    (scraping_results : RetestReport) : list string :=
  let recommendations := [] in
  let recommendations :=
    if bool_decide (successful (summary exploration_results) = 0)
    then recommendations ++
         [ "❌ No working endpoints found - site may be down or completely restructured";
           "🌐 Consider checking if the site has moved to a different domain";
           "📧 Contact the site administrator for current URL structure" ]
    else recommendations ++
         [ "✅ Found " +:+ pretty (successful (summary exploration_results))
             +:+ " working endpoints";
           "🔧 Use the working endpoints instead of the pagination URLs" ] in
  let recommendations :=
    if bool_decide (n_successful (retest_summary scraping_results) = 0)
    then recommendations ++
         [ "❌ All original pagination URLs failed";
           "🔍 The pagination structure has likely changed";
           "📋 Try using the working endpoints found during exploration" ]
    else recommendations in
  if bool_decide (0 < n_failed (retest_summary scraping_results))
  then
    let error_analysis := analyze_errors (failed_results scraping_results) in
    let recommendations :=
      if bool_decide (0 < default 0 (status_codes error_analysis !! KInt 404))
      then recommendations ++
           [ "🔧 404 errors confirm URL structure has changed" ]
      else recommendations in
    if bool_decide (0 < default 0 (status_codes error_analysis !! KInt 403))
    then recommendations ++ [ "🚫 403 errors suggest access restrictions" ]
    else recommendations
  else recommendations.

(** The document [main] writes. *)
Record DetailedResults := DetailedResults_ {
  exploration_results : ExplorationReport;
  scraping_results : RetestReport;
  recommendations : list string;
  timestamp : string
}.

(** [time.strftime('%Y-%m-%d %H:%M:%S')] *)
Variable strftime : W -> outcome string * W.
(** [os.makedirs(path, exist_ok=True)] *)
Variable makedirs : string -> W -> outcome unit * W.
(** [with open(path, 'w') as f: json.dump(doc, f, indent=2)] *)
Variable dump_json : string -> DetailedResults -> W -> outcome unit * W.

(** [os.path.join] of a directory name and a relative file name. *)
Definition path_join (dir file : string) : string := dir +:+ "/" +:+ file.

Definition original_urls : list string :=
  [
    "http://www.d2pbuyersguide.com/filter/all/page/1";
    "http://www.d2pbuyersguide.com/filter/all/page/2";
    "http://www.d2pbuyersguide.com/filter/all/page/3";
    "http://www.d2pbuyersguide.com/filter/all/page/4";
    "http://www.d2pbuyersguide.com/filter/all/page/5";
    "http://www.d2pbuyersguide.com/filter/all/page/6";
    "http://www.d2pbuyersguide.com/filter/all/page/7";
    "http://www.d2pbuyersguide.com/filter/all/page/8";
    "http://www.d2pbuyersguide.com/filter/all/page/9";
    "http://www.d2pbuyersguide.com/filter/all/page/10";
    "http://www.d2pbuyersguide.com/filter/all/page/11";
    "http://www.d2pbuyersguide.com/filter/all/page/12";
    "http://www.d2pbuyersguide.com/filter/all/page/13";
    "http://www.d2pbuyersguide.com/filter/all/page/14";
    "http://www.d2pbuyersguide.com/filter/all/page/15";
    "http://www.d2pbuyersguide.com/filter/all/page/16";
    "http://www.d2pbuyersguide.com/filter/all/page/17";
    "http://www.d2pbuyersguide.com/filter/all/page/18";
    "http://www.d2pbuyersguide.com/filter/all/page/19";
    "http://www.d2pbuyersguide.com/filter/all/page/20";
    "http://www.d2pbuyersguide.com/filter/all/page/21";
    "http://www.d2pbuyersguide.com/filter/all/page/22";
    "http://www.d2pbuyersguide.com/filter/all/page/23";
    "http://www.d2pbuyersguide.com/filter/all/page/24";
    "http://www.d2pbuyersguide.com/filter/all/page/25" ].

(** The persistence step of [main], lines 283-299. *)
Definition save_results (detailed_results : DetailedResults) : M W unit :=
  let output_dir := "scraping_output" in
  call (makedirs output_dir);;
  let output_file := path_join output_dir "detailed_analysis.json" in
  try_except
    (call (dump_json output_file detailed_results);;
     print (nl +:+ "💾 Detailed results saved to: " +:+ output_file))
    (fun e =>
       print (nl +:+ "⚠️  Warning: Could not save results to file: "
                 +:+ str_exn e);;
       print "   Results are still displayed above.");;
  print (nl +:+ str_repeat "=" 60);;
  print "🎯 CONCLUSION: The pagination URLs are not working because the site";;
  print "   structure has changed. Use the working endpoints found above";;
  print "   or contact the site administrator for current URL structure.";;
  print (str_repeat "=" 60).

(** [main]; the summaries it prints before the persistence step are left
    out. *)
Definition main : M W unit :=
  exploration_results <- explore_site "www.d2pbuyersguide.com";
  scraping_results <- scrape_original_urls original_urls;
  let recommendations :=
    generate_recommendations exploration_results scraping_results in
  timestamp <- call strftime;
  save_results {| exploration_results := exploration_results;
                  scraping_results := scraping_results;
                  recommendations := recommendations;
                  timestamp := timestamp |}.
End Scraper.

End Simple.

(** ** fixed_scraper.py *)

Module Fixed.

(** The dictionaries appended to [working_endpoints], [successful_scrapes]
    and [failed_scrapes]. *)
Record entry := Entry {
  url : string;
  status_code : option Z;
  content_length : option Z;
  content_preview : option string;
  error : option string
}.

(** The values of the dictionary [test_url_variations] returns. *)
Inductive variation :=
| Answered (status_code content_length : Z) (content_preview : string)
| Errored (error : string).

(** A [requests] response; the body has been received when [get] returns. *)
Record response := Response {
  response_status_code : Z;
  content : list Byte.byte;
  text : string
}.

Record ErrorAnalysis := ErrorAnalysis_ {
  error_types : gmap string Z;
  status_codes : gmap key Z;
  total_failures : Z
}.

(** The dictionary [scrape_with_error_handling] fills in. *)
Record ScrapeResults := ScrapeResults_ {
  successful_scrapes : list entry;
  failed_scrapes : list entry;
  error_summary : ErrorAnalysis;
  recommendations : list string
}.

Record ExplorationSummary := ExplorationSummary_ {
  total_endpoints_tested : Z;
  working_endpoints_found : Z
}.

Record SiteAnalysis := SiteAnalysis_ {
  base_url_tests : gmap string variation;
  working_endpoints : list entry;
  exploration_summary : ExplorationSummary
}.

(** The document [main] writes. *)
Record SavedResults := SavedResults_ {
  site_analysis : SiteAnalysis;
  scrape_results : ScrapeResults
}.

Section Scraper.
Context {W : Type}.
(** [self.session.get(url, timeout=...)] *)
Variable session_get : string -> W -> outcome response * W.
(** [urlparse(url).netloc]; [urlparse] raises [ValueError] on a URL it
    cannot split. *)
Variable netloc : string -> outcome string.
(** [urllib.parse.urljoin]; it parses its arguments and raises what
    [urlparse] raises. *)
Variable urljoin : string -> string -> outcome string.
(** [with open(path, 'w') as f: json.dump(doc, f, indent=2)] *)
Variable dump_json : string -> SavedResults -> W -> outcome unit * W.

(** [response.text[:k] if response.text else "Empty response"] *)
Definition preview (k : nat) (response : response) : string :=
  if str_truthy (text response) then str_take k (text response)
  else "Empty response".

(** The body of the loop of [test_url_variations]. *)
Definition variation_step (base_domain protocol : string)
    (results : gmap string variation) : M W (gmap string variation) :=
  let test_url := protocol +:+ "://" +:+ base_domain in
  try_except
    (response <- call (session_get test_url);
     ret (<[test_url := Answered (response_status_code response)
                                 (len (content response))
                                 (preview 200 response)]> results))
    (fun e => ret (<[test_url := Errored (str_exn e)]> results)).

Definition test_url_variations (base_url : string)
  : M W (gmap string variation) :=
  let protocols := ["https"; "http"] in
  base_domain <- pure_call (netloc base_url);
  for_each protocols (variation_step base_domain) ∅.

Definition endpoints_to_test : list string :=
  [ "/"; "/index.html"; "/index.php"; "/home"; "/main"; "/products"; "/items"; "/guide"; "/buyers-guide"; "/d2p"; "/api"; "/api/products"; "/api/items"; "/search"; "/category"; "/categories"; "/filter"; "/list"; "/all"; "/page/1"; "/page1"; "/p/1"; "/1" ].

(** The body of the loop of [find_working_endpoints]; [urljoin] is called
    before the [try]. *)
Definition endpoint_step (base_url endpoint : string)
    (working_endpoints : list entry) : M W (list entry) :=
  test_url <- pure_call (urljoin base_url endpoint);
  try_except
    (response <- call (session_get test_url);
     if bool_decide (response_status_code response = 200)
     then ret (working_endpoints ++
               [ {| url := test_url;
                    status_code := Some (response_status_code response);
                    content_length := Some (len (content response));
                    content_preview := Some (preview 300 response);
                    error := None |} ])
     else ret working_endpoints)
    (fun _ => ret working_endpoints).

(** [find_working_endpoints] from the point where the catalog is built. *)
Definition find_working_among (endpoints : list string)
    (base_domain : string) : M W (list entry) :=
  let base_url := "https://" +:+ base_domain in
  for_each endpoints (endpoint_step base_url) [].

Definition find_working_endpoints (base_domain : string) : M W (list entry) :=
  find_working_among endpoints_to_test base_domain.

Definition _analyze_errors (failed_scrapes : list entry) : ErrorAnalysis :=
  let tallies :=
    foldl (fun (acc : gmap string Z * gmap key Z) failure =>
             let error_type := default "Unknown" (error failure) in
             let status_code :=
               from_option KInt (KStr "Unknown") (status_code failure) in
             (tally error_type acc.1, tally status_code acc.2))
          (∅, ∅) failed_scrapes in
  {| error_types := tallies.1;
     status_codes := tallies.2;
     total_failures := len failed_scrapes |}.

Definition _generate_recommendations (results : ScrapeResults) : list string :=
  let recommendations := [] in
  let recommendations :=
    match successful_scrapes results with
    | [] => recommendations ++
            [ "❌ No successful scrapes - the site may be down or URLs are incorrect";
              "🔍 Try investigating the site structure manually";
              "🌐 Check if the site has moved to a different domain" ]
    | _ :: _ => recommendations
    end in
  let recommendations :=
    if bool_decide
         (0 < default 0 (status_codes (error_summary results) !! KInt 404))
    then recommendations ++
         [ "🔧 404 errors suggest URL structure has changed";
           "📋 Consider using a sitemap or site exploration tool" ]
    else recommendations in
  if bool_decide
       (0 < default 0 (status_codes (error_summary results) !! KInt 403))
  then recommendations ++
       [ "🚫 403 errors suggest access restrictions";
         "🔑 Check if authentication is required" ]
  else recommendations.

(** The body of the loop of [scrape_with_error_handling]; the accumulator
    is [(successful_scrapes, failed_scrapes)]. *)
Definition scrape_step (u : string) (acc : list entry * list entry)
  : M W (list entry * list entry) :=
  try_except
    (let https_url := str_replace "http://" "https://" u in
     response <- call (session_get https_url);
     if bool_decide (response_status_code response = 200)
     then ret (acc.1 ++
               [ {| url := https_url;
                    status_code := Some (response_status_code response);
                    content_length := Some (len (content response));
                    content_preview := Some (preview 500 response);
                    error := None |} ],
               acc.2)
     else ret (acc.1,
               acc.2 ++
               [ {| url := https_url;
                    status_code := Some (response_status_code response);
                    content_length := None;
                    content_preview := None;
                    error := Some ("HTTP " +:+
                                   pretty (response_status_code response)) |} ]))
    (fun e =>
       match e with
       | RequestException _ =>
           ret (acc.1,
                acc.2 ++
                [ {| url := u;
                     status_code := None;
                     content_length := None;
                     content_preview := None;
                     error := Some (str_exn e) |} ])
       | _ => raise e
       end).

Definition scrape_with_error_handling (urls : list string)
  : M W ScrapeResults :=
  acc <- for_each urls scrape_step ([], []);
  let error_summary := _analyze_errors acc.2 in
  let results := {| successful_scrapes := acc.1;
                    failed_scrapes := acc.2;
                    error_summary := error_summary;
                    recommendations := [] |} in
  ret {| successful_scrapes := acc.1;
         failed_scrapes := acc.2;
         error_summary := error_summary;
         recommendations := _generate_recommendations results |}.

Definition explore_site_structure (base_domain : string) : M W SiteAnalysis :=
  url_tests <- test_url_variations ("https://" +:+ base_domain);
  working_endpoints <- find_working_endpoints base_domain;
  ret {| base_url_tests := url_tests;
         working_endpoints := working_endpoints;
         exploration_summary :=
           {| total_endpoints_tested := len working_endpoints;
              working_endpoints_found :=
                len (filter (fun ep => status_code ep = Some 200)
                            working_endpoints) |} |}.

Definition original_urls : list string :=
  [
    "http://www.d2pbuyersguide.com/filter/all/page/1";
    "http://www.d2pbuyersguide.com/filter/all/page/2";
    "http://www.d2pbuyersguide.com/filter/all/page/3";
    "http://www.d2pbuyersguide.com/filter/all/page/4";
    "http://www.d2pbuyersguide.com/filter/all/page/5";
    "http://www.d2pbuyersguide.com/filter/all/page/6";
    "http://www.d2pbuyersguide.com/filter/all/page/7";
    "http://www.d2pbuyersguide.com/filter/all/page/8";
    "http://www.d2pbuyersguide.com/filter/all/page/9";
    "http://www.d2pbuyersguide.com/filter/all/page/10";
    "http://www.d2pbuyersguide.com/filter/all/page/11";
    "http://www.d2pbuyersguide.com/filter/all/page/12";
    "http://www.d2pbuyersguide.com/filter/all/page/13";
    "http://www.d2pbuyersguide.com/filter/all/page/14";
    "http://www.d2pbuyersguide.com/filter/all/page/15";
    "http://www.d2pbuyersguide.com/filter/all/page/16";
    "http://www.d2pbuyersguide.com/filter/all/page/17";
    "http://www.d2pbuyersguide.com/filter/all/page/18";
    "http://www.d2pbuyersguide.com/filter/all/page/19";
    "http://www.d2pbuyersguide.com/filter/all/page/20";
    "http://www.d2pbuyersguide.com/filter/all/page/21";
    "http://www.d2pbuyersguide.com/filter/all/page/22";
    "http://www.d2pbuyersguide.com/filter/all/page/23";
    "http://www.d2pbuyersguide.com/filter/all/page/24";
    "http://www.d2pbuyersguide.com/filter/all/page/25" ].

(** The persistence step of [main], lines 264-271. *)
Definition save_results (doc : SavedResults) : M W unit :=
  call (dump_json "/workspace/scraping_results.json" doc);;
  print (nl +:+ "💾 Results saved to /workspace/scraping_results.json").

(** [main]; the summaries it prints before the persistence step are left
    out. *)
Definition main : M W unit :=
  site_analysis <- explore_site_structure "www.d2pbuyersguide.com";
  scrape_results <- scrape_with_error_handling original_urls;
  save_results {| site_analysis := site_analysis;
                  scrape_results := scrape_results |}.
End Scraper.

End Fixed.

(** ** Scripted worlds

    Worlds used to run the scripts on concrete inputs: the world is the
    log of the URLs requested so far and a table says what each URL
    answers. *)

Module Stub.

Definition log := list string.

Definition urlopen (table : string -> outcome Simple.response)
    (u : string) (w : log) : outcome Simple.response * log :=
  (table u, w ++ [u]).

Definition session_get (table : string -> outcome Fixed.response)
    (u : string) (w : log) : outcome Fixed.response * log :=
  (table u, w ++ [u]).

(** Every URL answers 404 with a readable body. *)
Definition not_found (u : string) : outcome Simple.response :=
  Raise (HTTPError 404 "Not Found" (Some (ReadOk "<html>Not Found</html>"))).

(** As [not_found], but [/index.html] of [example.test] stalls after its
    404 status line: reading the body times out. *)
Definition stalled (u : string) : outcome Simple.response :=
  if bool_decide (u = "https://example.test/index.html")
  then Raise (HTTPError 404 "Not Found"
                (Some (ReadRaises "The read operation timed out")))
  else not_found u.

(** The root and [/products] of [example.test] answer 200, a name that
    does not resolve raises, everything else answers 404. *)
Definition example_test (u : string) : outcome Simple.response :=
  if bool_decide (u = "https://example.test/")
     || bool_decide (u = "https://example.test/products")
  then Return {| Simple.getcode := 200;
                 Simple.body := ReadOk "<html>ok</html>";
                 Simple.response_headers := [("Content-Type", "text/html")] |}
  else if bool_decide (u = "https://unknown.invalid/")
  then Raise (OtherException "<urlopen error [Errno -2] Name or service not known>")
  else not_found u.

(** The same for [requests]: a 404 is a response, not an exception. *)
Definition not_found_response (u : string) : outcome Fixed.response :=
  Return {| Fixed.response_status_code := 404;
            Fixed.content := [];
            Fixed.text := "" |}.

(** [/products] of [example.test] answers 200, [/slow] times out, and
    everything else answers 404. *)
Definition example_test_response (u : string) : outcome Fixed.response :=
  if bool_decide (u = "https://example.test/products")
  then Return {| Fixed.response_status_code := 200;
                 Fixed.content := [];
                 Fixed.text := "<html>ok</html>" |}
  else if bool_decide (u = "https://example.test/slow")
  then Raise (RequestException "Read timed out. (read timeout=15)")
  else not_found_response u.

(** [urlparse(url).netloc] and [urljoin(base, endpoint)] of [urllib.parse]
    on the URLs [Fixed] builds: a URL is [scheme://netloc] followed by a
    path, a query or a fragment, and an endpoint starts with one [/] and
    has no dot segment.  The netloc ends at the first [/], [?] or [#]; a
    bracket without its partner in the netloc raises [ValueError] (a host
    between brackets is taken as it is); the joined URL keeps the scheme
    and the netloc of the base and takes the rest from the endpoint, so
    the path of the base is replaced; a URL without [://] has no netloc
    and joins to the endpoint alone. *)
Fixpoint until_delimiter (s : string) : string :=
  match s with
  | EmptyString => EmptyString
  | String c s' =>
      if String.prefix "/" s || String.prefix "?" s || String.prefix "#" s
      then EmptyString
      else String c (until_delimiter s')
  end.

(** The text before the first [://] and the text after it. *)
Fixpoint split_scheme (s : string) : option (string * string) :=
  match s with
  | EmptyString => None
  | String c s' =>
      if String.prefix "://" s
      then Some (EmptyString, String.substring 2 (String.length s') s')
      else match split_scheme s' with
           | Some (scheme, rest) => Some (String c scheme, rest)
           | None => None
           end
  end.

Definition netloc_of (rest : string) : outcome string :=
  let netloc := until_delimiter rest in
  if xorb (str_contains "[" netloc) (str_contains "]" netloc)
  then Raise (OtherException "Invalid IPv6 URL")
  else Return netloc.

Definition netloc (u : string) : outcome string :=
  match split_scheme u with
  | Some (_, rest) => netloc_of rest
  | None => Return ""
  end.

Definition urljoin (base endpoint : string) : outcome string :=
  match split_scheme base with
  | Some (scheme, rest) =>
      match netloc_of rest with
      | Return netloc => Return (scheme +:+ "://" +:+ netloc +:+ endpoint)
      | Raise e => Raise e
      end
  | None => Return endpoint
  end.

Definition strftime (w : log) : outcome string * log :=
  (Return "2024-01-01 00:00:00", w).

Definition makedirs (path : string) (w : log) : outcome unit * log :=
  (Return tt, w).

(** A file system that takes the report, and one that refuses it. *)
Definition dump_ok {D} (path : string) (doc : D) (w : log) : outcome unit * log :=
  (Return tt, w).

Definition dump_denied {D} (path : string) (doc : D) (w : log)
  : outcome unit * log :=
  (Raise (OtherException ("[Errno 13] Permission denied: '" +:+ path +:+ "'")), w).

(** The float arithmetic of [f"{(a/b*100):.1f}%"] for the lengths
    [0 <= a] and [0 < b] of two lists.  A double is the fraction of its
    value; the division and the product round to the nearest double, and
    the rendering rounds the exact value of the product to one decimal,
    ties to even each time. *)
Definition round_half_even (n d : Z) : Z :=
  let q := n `div` d in
  let r := 2 * (n `mod` d) in
  if bool_decide (r < d) then q
  else if bool_decide (d < r) then q + 1
  else if Z.even q then q else q + 1.

(** The double nearest to [n / d]: its 53-bit significand is the rounded
    quotient scaled by the power of two of its exponent. *)
Definition nearest_double (n d : Z) : Z * Z :=
  if bool_decide (n <= 0) then (0, 1)
  else
    let e0 := Z.log2 n - Z.log2 d in
    let e := if bool_decide (d * 2 ^ Z.max 0 e0 <= n * 2 ^ Z.max 0 (- e0))
             then e0 else e0 - 1 in
    let shift := 52 - e in
    let m := round_half_even (n * 2 ^ Z.max 0 shift)
                             (d * 2 ^ Z.max 0 (- shift)) in
    (m * 2 ^ Z.max 0 (- shift), 2 ^ Z.max 0 shift).

Definition percent_1f (a b : Z) : string :=
  let q := nearest_double a b in
  let p := nearest_double (100 * q.1) q.2 in
  let tenths := round_half_even (10 * p.1) p.2 in
  pretty (tenths `div` 10) +:+ "." +:+ pretty (tenths `mod` 10) +:+ "%".

Definition start : state log := {| world := []; stdout := [] |}.

(** An exploration without a working endpoint, one with two, and a retest
    of one URL that answered 404. *)
Definition none_working : Simple.ExplorationReport :=
  {| Simple.all_tests := [];
     Simple.working_endpoints := [];
     Simple.summary := {| Simple.total_tested := 20;
                          Simple.successful := 0;
                          Simple.failed := 20 |} |}.

Definition two_working : Simple.ExplorationReport :=
  {| Simple.all_tests := [];
     Simple.working_endpoints := [];
     Simple.summary := {| Simple.total_tested := 20;
                          Simple.successful := 2;
                          Simple.failed := 18 |} |}.

Definition page_1_missing : Simple.result :=
  {| Simple.url := "https://www.d2pbuyersguide.com/filter/all/page/1";
     Simple.status_code := Some 404;
     Simple.success := false;
     Simple.content_length := None;
     Simple.content_preview := "<html>Not Found</html>";
     Simple.headers := None;
     Simple.error := Some "HTTP 404: Not Found";
     Simple.original_url :=
       Some "http://www.d2pbuyersguide.com/filter/all/page/1" |}.

Definition page_1_found : Fixed.entry :=
  {| Fixed.url := "https://www.d2pbuyersguide.com/filter/all/page/1";
     Fixed.status_code := Some 200;
     Fixed.content_length := Some 15;
     Fixed.content_preview := Some "<html>ok</html>";
     Fixed.error := None |}.

Definition page_2_timeout : Simple.result :=
  {| Simple.url := "https://www.d2pbuyersguide.com/filter/all/page/2";
     Simple.status_code := None;
     Simple.success := false;
     Simple.content_length := None;
     Simple.content_preview := "No content";
     Simple.headers := None;
     Simple.error := Some "The read operation timed out";
     Simple.original_url :=
       Some "http://www.d2pbuyersguide.com/filter/all/page/2" |}.

Definition one_failure : Simple.RetestReport :=
  {| Simple.all_results := [page_1_missing];
     Simple.successful_results := [];
     Simple.failed_results := [page_1_missing];
     Simple.retest_summary := {| Simple.total := 1;
                                 Simple.n_successful := 0;
                                 Simple.n_failed := 1;
                                 Simple.success_rate := "0.0%" |} |}.

(** A host name with a label that cannot be encoded: [requests] lets the
    [UnicodeError] of the encoder through. *)
Definition label_too_long (u : string) : outcome Fixed.response :=
  Raise (OtherException "label empty or too long").

Definition sample_document : Simple.DetailedResults :=
  {| Simple.exploration_results := none_working;
     Simple.scraping_results := one_failure;
     Simple.recommendations :=
       Simple.generate_recommendations none_working one_failure;
     Simple.timestamp := "2024-01-01 00:00:00" |}.

End Stub.

(** ** Vocabulary of the properties *)

(** What happened inside the [try] block of [Simple.test_url]. *)
Inductive attempt :=
| NoException          (* the response arrived and its body was read *)
| HTTPStatusFailure    (* [urlopen] raised [HTTPError] *)
| OtherFailure.        (* any other exception, from [urlopen] or the read *)

Definition attempt_of (o : outcome Simple.response) : attempt :=
  match o with
  | Return response =>
      match Simple.body response with
      | ReadOk _ => NoException
      | ReadRaises _ => OtherFailure
      end
  | Raise (HTTPError _ _ _) => HTTPStatusFailure
  | Raise _ => OtherFailure
  end.

(** An [HTTPError] whose body cannot be read. *)
Definition unreadable_error (o : outcome Simple.response) : bool :=
  match o with
  | Raise (HTTPError _ _ (Some (ReadRaises _))) => true
  | _ => false
  end.

(** The state a probe leaves behind: one request was made. *)
Definition after_request {W R} (request : string -> W -> outcome R * W)
    (u : string) (s : state W) : state W :=
  {| world := (request u (world s)).2; stdout := stdout s |}.

(** The network never answers with an error whose body cannot be read. *)
Definition error_bodies_readable {W}
    (urlopen : string -> W -> outcome Simple.response * W) : Prop :=
  forall u w, unreadable_error (urlopen u w).1 = false.

(** No character of [u] is [c]. *)
Fixpoint free_of (c : ascii) (u : string) : Prop :=
  match u with
  | EmptyString => True
  | String d u' => d <> c /\ free_of c u'
  end.

(** [p] occurs in [s]. *)
Definition occurs (p s : string) : Prop := exists a b, s = a +:+ p +:+ b.

(** The messages of the exploration rule of [Simple.generate_recommendations]
    and the messages its other rules can add. *)
Definition msg_no_endpoints : list string :=
  [ "❌ No working endpoints found - site may be down or completely restructured";
    "🌐 Consider checking if the site has moved to a different domain";
    "📧 Contact the site administrator for current URL structure" ].

Definition msg_found (n : Z) : string :=
  "✅ Found " +:+ pretty n +:+ " working endpoints".

Definition msg_use_working : string :=
  "🔧 Use the working endpoints instead of the pagination URLs".

Definition msg_retest : list string :=
  [ "❌ All original pagination URLs failed";
    "🔍 The pagination structure has likely changed";
    "📋 Try using the working endpoints found during exploration";
    "🔧 404 errors confirm URL structure has changed";
    "🚫 403 errors suggest access restrictions" ].

Definition exploration_part (n : Z) : list string :=
  if bool_decide (n = 0) then msg_no_endpoints
  else [msg_found n; msg_use_working].

(** The messages of [Fixed._generate_recommendations]: those of its rule
    on the successful scrapes and those of its rules on status codes. *)
Definition fixed_msg_no_success : list string :=
  [ "❌ No successful scrapes - the site may be down or URLs are incorrect";
    "🔍 Try investigating the site structure manually";
    "🌐 Check if the site has moved to a different domain" ].

Definition fixed_msg_status : list string :=
  [ "🔧 404 errors suggest URL structure has changed";
    "📋 Consider using a sitemap or site exploration tool";
    "🚫 403 errors suggest access restrictions";
    "🔑 Check if authentication is required" ].

(** The answers of the network to a sequence of requests, in order. *)
Fixpoint answers {W R} (request : string -> W -> outcome R * W)
    (urls : list string) (w : W) : list (string * outcome R) :=
  match urls with
  | [] => []
  | u :: urls' =>
      (u, (request u w).1) :: answers request urls' (request u w).2
  end.

(** The entry [Fixed.find_working_endpoints] makes of an answer: one for
    a response with status 200, none otherwise. *)
Definition working_entry (a : string * outcome Fixed.response)
  : option Fixed.entry :=
  match a.2 with
  | Return response =>
      if bool_decide (Fixed.response_status_code response = 200)
      then Some {| Fixed.url := a.1;
                   Fixed.status_code := Some 200;
                   Fixed.content_length := Some (len (Fixed.content response));
                   Fixed.content_preview := Some (Fixed.preview 300 response);
                   Fixed.error := None |}
      else None
  | Raise _ => None
  end.

(** [urljoin] returns [test_urls] for the endpoints of a catalog. *)
Definition joined (urljoin : string -> string -> outcome string)
    (base_url : string) (endpoints test_urls : list string) : Prop :=
  Forall2 (fun endpoint test_url => urljoin base_url endpoint = Return test_url)
    endpoints test_urls.

(** The entry [Fixed.scrape_with_error_handling] makes for the input [u]
    when the network answers [o] to the request for the rewritten URL:
    made from a response it carries the rewritten URL and the status of
    the response; made from a [RequestException] it carries [u] itself,
    no status and the text of the exception.  No entry is made from
    another exception. *)
Definition made_for (u : string) (o : outcome Fixed.response)
    (e : Fixed.entry) : Prop :=
  match o with
  | Return response =>
      Fixed.url e = str_replace "http://" "https://" u /\
      Fixed.status_code e = Some (Fixed.response_status_code response)
  | Raise (RequestException msg) =>
      Fixed.url e = u /\ Fixed.status_code e = None /\
      Fixed.error e = Some msg
  | Raise _ => False
  end.

(** [requests] raises nothing but its own exceptions. *)
Definition only_request_exceptions {W}
    (session_get : string -> W -> outcome Fixed.response * W) : Prop :=
  forall u w e, (session_get u w).1 = Raise e ->
                exists msg, e = RequestException msg.

(** The lines [Simple.main] prints after the persistence step. *)
Definition conclusion : list string :=
  [ nl +:+ str_repeat "=" 60;
    "🎯 CONCLUSION: The pagination URLs are not working because the site";
    "   structure has changed. Use the working endpoints found above";
    "   or contact the site administrator for current URL structure.";
    str_repeat "=" 60 ].

(** The keys of a dictionary of [Simple.test_url]: a success has its
    status, length and headers and no error; a failure has its error and
    neither length nor headers; the preview has at most 300 characters. *)
Definition well_formed (r : Simple.result) : Prop :=
  (String.length (Simple.content_preview r) <= 300)%nat /\
  if Simple.success r
  then is_Some (Simple.status_code r) /\ is_Some (Simple.content_length r) /\
       is_Some (Simple.headers r) /\ Simple.error r = None
  else is_Some (Simple.error r) /\ Simple.content_length r = None /\
       Simple.headers r = None.

(** The world after one request for each URL of a list, in order. *)
Definition world_after {W R} (request : string -> W -> outcome R * W)
    (urls : list string) (w : W) : W :=
  foldl (fun w u => (request u w).2) w urls.

(** The value [Fixed.test_url_variations] stores for an answer. *)
Definition variation_of (o : outcome Fixed.response) : Fixed.variation :=
  match o with
  | Return response =>
      Fixed.Answered (Fixed.response_status_code response)
        (len (Fixed.content response)) (Fixed.preview 200 response)
  | Raise e => Fixed.Errored (str_exn e)
  end.

(** The keys of an entry of [Fixed.scrape_with_error_handling]: a
    successful scrape has status 200, its length and a preview of at most
    500 characters, and no error; a failed scrape has its error and
    neither length nor preview. *)
Definition successful_entry (e : Fixed.entry) : Prop :=
  Fixed.status_code e = Some 200 /\ is_Some (Fixed.content_length e) /\
  Fixed.error e = None /\
  exists p, Fixed.content_preview e = Some p /\ (String.length p <= 500)%nat.

Definition failed_entry (e : Fixed.entry) : Prop :=
  Fixed.status_code e <> Some 200 /\ is_Some (Fixed.error e) /\
  Fixed.content_length e = None /\ Fixed.content_preview e = None.

(** A computation that prints nothing. *)
Definition silent {W A} (m : M W A) : Prop :=
  forall s, stdout (m s).2 = stdout s.

(** The tally of the labels of a list, starting from [counts]. *)
Definition tally_all `{Countable K} {A} (label : A -> K) (l : list A)
    (counts : gmap K Z) : gmap K Z :=
  foldl (fun counts a => tally (label a) counts) counts l.

(** ** The monad *)

Section MonadFacts.
Context {W : Type}.
Implicit Types s : state W.

Lemma bind_Return {A B} (m : M W A) (k : A -> M W B) s a s' :
  m s = (Return a, s') -> bind m k s = k a s'.
Proof. unfold bind. by intros ->. Qed.

Lemma bind_Raise {A B} (m : M W A) (k : A -> M W B) s e s' :
  m s = (Raise e, s') -> bind m k s = (Raise e, s').
Proof. unfold bind. by intros ->. Qed.

Lemma bind_inv_Return {A B} (m : M W A) (k : A -> M W B) s b s2 :
  bind m k s = (Return b, s2) ->
  exists a s1, m s = (Return a, s1) /\ k a s1 = (Return b, s2).
Proof.
  unfold bind. destruct (m s) as [[a|e] s1]; [eauto | discriminate].
Qed.

Lemma bind_inv_Raise {A B} (m : M W A) (k : A -> M W B) s e s2 :
  bind m k s = (Raise e, s2) ->
  m s = (Raise e, s2) \/
  exists a s1, m s = (Return a, s1) /\ k a s1 = (Raise e, s2).
Proof.
  unfold bind. destruct (m s) as [[a|e'] s1]; [eauto | intros [= <- <-]; eauto].
Qed.

Lemma bind_pure_call_Return {A B} (o : outcome A) (k : A -> M W B) s a :
  o = Return a -> bind (pure_call o) k s = k a s.
Proof. by intros ->. Qed.

Lemma bind_pure_call_Raise {A B} (o : outcome A) (k : A -> M W B) s e :
  o = Raise e -> bind (pure_call o) k s = (Raise e, s).
Proof. by intros ->. Qed.

(** A loop over [xs ++ ys] is the loop over [xs] followed by the loop
    over [ys]. *)
Lemma for_each_app {A S} (xs ys : list A) (body : A -> S -> M W S) acc s :
  for_each (xs ++ ys) body acc s
  = bind (for_each xs body acc) (for_each ys body) s.
Proof.
  revert acc s. induction xs as [|x xs IH]; intros acc s; simpl.
  - done.
  - unfold bind in *. destruct (body x acc s) as [[acc'|e] s1].
    + apply IH.
    + done.
Qed.

(** If every round returns and keeps an invariant, the loop returns and
    the invariant holds at the end. *)
Lemma for_each_returns {A S} (I : S -> Prop) (xs : list A)
    (body : A -> S -> M W S) acc s :
  I acc ->
  (forall x acc s, I acc ->
     exists acc' s', body x acc s = (Return acc', s') /\ I acc') ->
  exists acc' s', for_each xs body acc s = (Return acc', s') /\ I acc'.
Proof.
  intros Hacc Hbody. revert acc s Hacc.
  induction xs as [|x xs IH]; intros acc s Hacc; simpl.
  - by exists acc, s.
  - destruct (Hbody x acc s Hacc) as (acc1 & s1 & Hx & Hacc1).
    rewrite (bind_Return _ _ _ _ _ Hx). by apply IH.
Qed.
End MonadFacts.

(** ** The prober of simple_scraper.py *)

Section SimpleProber.
Context {W : Type}.
Variable urlopen : string -> W -> outcome Simple.response * W.
Implicit Types s : state W.

Local Abbreviation test_url := (Simple.test_url urlopen).
Local Abbreviation after_request := (after_request urlopen).

Lemma test_url_state u s : (test_url u s).2 = after_request u s.
Proof.
  unfold Simple.test_url, try_except, bind, call, read, ret, raise,
    after_request.
  destruct (urlopen u (world s)) as [[resp|e] w]; simpl.
  - by destruct (Simple.body resp).
  - destruct e as [code reason [[c|m]|]| | |]; done.
Qed.

(** A probe fails to return only on an [HTTPError] whose body cannot be
    read. *)
Lemma test_url_returns u s :
  unreadable_error (urlopen u (world s)).1 = false ->
  exists r, test_url u s = (Return r, after_request u s)
            /\ Simple.url r = u /\ Simple.original_url r = None.
Proof.
  unfold Simple.test_url, try_except, bind, call, read, ret, raise,
    after_request.
  destruct (urlopen u (world s)) as [[resp|e] w]; simpl.
  - intros _. destruct (Simple.body resp); eauto.
  - destruct e as [code reason [[c|m]|]| | |]; simpl; intros ?;
      try discriminate; eauto.
Qed.

Lemma test_url_propagates u s :
  unreadable_error (urlopen u (world s)).1 = true ->
  exists msg, test_url u s = (Raise (OtherException msg), after_request u s).
Proof.
  unfold Simple.test_url, try_except, bind, call, read, ret, raise,
    after_request.
  destruct (urlopen u (world s)) as [[resp|e] w]; simpl.
  - discriminate.
  - destruct e as [code reason [[c|m]|]| | |]; simpl; intros ?;
      try discriminate; eauto.
Qed.

(** The shape of every dictionary the prober returns. *)
Lemma test_url_shape u s r s' :
  test_url u s = (Return r, s') ->
  Simple.url r = u /\ Simple.original_url r = None /\
  match attempt_of (urlopen u (world s)).1 with
  | NoException =>
      Simple.success r = true /\ Simple.error r = None /\
      is_Some (Simple.status_code r)
  | HTTPStatusFailure =>
      Simple.success r = false /\ is_Some (Simple.error r) /\
      is_Some (Simple.status_code r)
  | OtherFailure =>
      Simple.success r = false /\ is_Some (Simple.error r) /\
      Simple.status_code r = None
  end.
Proof.
  unfold Simple.test_url, try_except, bind, call, read, ret, raise.
  destruct (urlopen u (world s)) as [[resp|e] w]; simpl.
  - destruct (Simple.body resp); intros [= <- <-]; simpl; eauto.
  - destruct e as [code reason [[c|m]|]| | |]; simpl; intros [= <- <-];
      simpl; eauto.
Qed.
End SimpleProber.

(** ** The explorer of simple_scraper.py *)

Section SimpleExplorer.
Context {W : Type}.
Variable urlopen : string -> W -> outcome Simple.response * W.
Implicit Types s : state W.

Lemma is_working_spec r :
  Simple.is_working r = true <->
  Simple.success r = true /\ Simple.status_code r = Some 200.
Proof.
  unfold Simple.is_working.
  rewrite andb_true_iff, bool_decide_eq_true. done.
Qed.

(** One round of the loop appends the new result to [results], and to
    [working_endpoints] when it is a 200 success. *)
Lemma explore_step_inv u acc s acc' s' :
  Simple.explore_step urlopen u acc s = (Return acc', s') ->
  exists r, Simple.url r = u /\
    acc'.1 = acc.1 ++ [r] /\
    acc'.2 = acc.2 ++ List.filter Simple.is_working [r].
Proof.
  unfold Simple.explore_step. intros H.
  apply bind_inv_Return in H as (r & s1 & Hr & H).
  apply test_url_shape in Hr as (Hu & _).
  injection H as <- <-. exists r. simpl.
  destruct (Simple.is_working r); simpl; by rewrite ?app_nil_r.
Qed.

Lemma explore_loop_inv urls acc s acc' s' :
  for_each urls (Simple.explore_step urlopen) acc s = (Return acc', s') ->
  exists new, map Simple.url new = urls /\
    acc'.1 = acc.1 ++ new /\
    acc'.2 = acc.2 ++ List.filter Simple.is_working new.
Proof.
  revert acc s. induction urls as [|u urls IH]; intros acc s; simpl.
  - intros [= <- <-]. exists []. by rewrite !app_nil_r.
  - intros H. apply bind_inv_Return in H as (acc1 & s1 & Hstep & H).
    apply explore_step_inv in Hstep as (r & Hu & H1 & H2).
    apply IH in H as (new & Hnew & H3 & H4).
    exists (r :: new). simpl. rewrite Hu, Hnew, H3, H4, H1, H2.
    simpl. rewrite <- !app_assoc. simpl.
    destruct (Simple.is_working r); done.
Qed.

Lemma explore_urls_inv urls s rep s' :
  Simple.explore_urls urlopen urls s = (Return rep, s') ->
  map Simple.url (Simple.all_tests rep) = urls /\
  Simple.working_endpoints rep
    = List.filter Simple.is_working (Simple.all_tests rep) /\
  Simple.summary rep
    = {| Simple.total_tested := len (Simple.all_tests rep);
         Simple.successful := len (Simple.working_endpoints rep);
         Simple.failed := len (Simple.all_tests rep)
                          - len (Simple.working_endpoints rep) |}.
Proof.
  unfold Simple.explore_urls. intros H.
  apply bind_inv_Return in H as (acc & s1 & Hloop & H).
  apply explore_loop_inv in Hloop as (new & Hnew & H1 & H2).
  injection H as <- <-. simpl in *. by rewrite H1, H2.
Qed.

(** With readable error bodies every probe returns, and so does the
    exploration. *)
Lemma explore_urls_returns urls s :
  error_bodies_readable urlopen ->
  exists rep s', Simple.explore_urls urlopen urls s = (Return rep, s').
Proof.
  intros Hread. unfold Simple.explore_urls.
  destruct (for_each_returns (fun _ => True) urls
              (Simple.explore_step urlopen) ([], []) s I)
    as (acc & s1 & Hloop & _).
  - intros u acc s0 _. unfold Simple.explore_step.
    destruct (test_url_returns urlopen u s0 (Hread u (world s0)))
      as (r & Hr & _).
    rewrite (bind_Return _ _ _ _ _ Hr). eauto.
  - rewrite (bind_Return _ _ _ _ _ Hloop). eauto.
Qed.
End SimpleExplorer.

(** ** The retester of simple_scraper.py *)

Section SimpleRetester.
Context {W : Type}.
Variable urlopen : string -> W -> outcome Simple.response * W.
Variable percent_1f : Z -> Z -> string.
Implicit Types s : state W.

Local Abbreviation rewrite_scheme := (str_replace "http://" "https://").
Local Abbreviation not_working := (fun r => negb (Simple.is_working r)).

Lemma scrape_step_inv u acc s acc' s' :
  Simple.scrape_step urlopen u acc s = (Return acc', s') ->
  exists r,
    Simple.url r = rewrite_scheme u /\
    Simple.original_url r = Some u /\
    acc'.1.1 = acc.1.1 ++ [r] /\
    acc'.1.2 = acc.1.2 ++ List.filter Simple.is_working [r] /\
    acc'.2 = acc.2 ++ List.filter not_working [r].
Proof.
  destruct acc as [[results successful] failed].
  unfold Simple.scrape_step. intros H.
  apply bind_inv_Return in H as (r & s1 & Hr & H).
  apply test_url_shape in Hr as (Hu & _).
  exists (Simple.set_original_url r u). simpl.
  destruct (Simple.is_working (Simple.set_original_url r u));
    injection H as <- <-; simpl; by rewrite ?app_nil_r.
Qed.

Lemma scrape_loop_inv urls acc s acc' s' :
  for_each urls (Simple.scrape_step urlopen) acc s = (Return acc', s') ->
  exists new,
    map Simple.url new = map rewrite_scheme urls /\
    map Simple.original_url new = map Some urls /\
    acc'.1.1 = acc.1.1 ++ new /\
    acc'.1.2 = acc.1.2 ++ List.filter Simple.is_working new /\
    acc'.2 = acc.2 ++ List.filter not_working new.
Proof.
  revert acc s. induction urls as [|u urls IH]; intros acc s; simpl.
  - intros [= <- <-]. exists []. by rewrite !app_nil_r.
  - intros H. apply bind_inv_Return in H as (acc1 & s1 & Hstep & H).
    apply scrape_step_inv in Hstep as (r & Hu & Ho & H1 & H2 & H3).
    apply IH in H as (new & Hnew & Hnew' & H4 & H5 & H6).
    exists (r :: new). simpl.
    rewrite Hu, Ho, Hnew, Hnew', H4, H5, H6, H1, H2, H3.
    simpl. rewrite <- !app_assoc. simpl.
    destruct (Simple.is_working r); done.
Qed.

(** The report of a retest that returns. *)
Lemma scrape_original_urls_inv urls s rep s' :
  Simple.scrape_original_urls urlopen percent_1f urls s = (Return rep, s') ->
  urls <> [] /\
  map Simple.url (Simple.all_results rep) = map rewrite_scheme urls /\
  map Simple.original_url (Simple.all_results rep) = map Some urls /\
  Simple.successful_results rep
    = List.filter Simple.is_working (Simple.all_results rep) /\
  Simple.failed_results rep
    = List.filter not_working (Simple.all_results rep) /\
  Simple.retest_summary rep
    = {| Simple.total := len (Simple.all_results rep);
         Simple.n_successful := len (Simple.successful_results rep);
         Simple.n_failed := len (Simple.failed_results rep);
         Simple.success_rate :=
           percent_1f (len (Simple.successful_results rep))
                      (len (Simple.all_results rep)) |}.
Proof.
  unfold Simple.scrape_original_urls. intros H.
  apply bind_inv_Return in H as (acc & s1 & Hloop & H).
  apply scrape_loop_inv in Hloop as (new & Hnew & Hnew' & H1 & H2 & H3).
  destruct acc as [[results successful] failed]. simpl in *. subst.
  unfold Simple.format_success_rate in H.
  case_bool_decide as Hlen.
  - discriminate.
  - apply bind_inv_Return in H as (rate & s2 & [= <- <-] & [= <- <-]).
    simpl. repeat split; try done.
    intros ->. destruct new; [done | discriminate].
Qed.

(** With readable error bodies a retest of a non-empty list returns. *)
Lemma scrape_original_urls_returns urls s :
  error_bodies_readable urlopen -> urls <> [] ->
  exists rep s',
    Simple.scrape_original_urls urlopen percent_1f urls s = (Return rep, s').
Proof.
  intros Hread Hne. unfold Simple.scrape_original_urls.
  destruct (for_each_returns (fun _ => True) urls
              (Simple.scrape_step urlopen) ([], [], []) s I)
    as (acc & s1 & Hloop & _).
  - intros u [[results successful] failed] s0 _. unfold Simple.scrape_step.
    destruct (test_url_returns urlopen (rewrite_scheme u) s0
                (Hread _ (world s0))) as (r & Hr & _).
    rewrite (bind_Return _ _ _ _ _ Hr).
    destruct (Simple.is_working _); eauto.
  - rewrite (bind_Return _ _ _ _ _ Hloop).
    apply scrape_loop_inv in Hloop as (new & _ & Hnew & H1 & _).
    destruct acc as [[results successful] failed]. simpl in *. subst.
    unfold Simple.format_success_rate.
    case_bool_decide as Hlen.
    + destruct new; [by destruct urls | discriminate].
    + unfold bind, ret. eauto.
Qed.
End SimpleRetester.

(** ** Tallies *)

Section Tallies.
Context `{Countable K}.
Implicit Types (m : gmap K Z) (k : K).

Lemma counts_sum_empty : counts_sum (∅ : gmap K Z) = 0.
Proof. unfold counts_sum. by rewrite map_fold_empty. Qed.

Lemma counts_sum_insert_fresh m k n :
  m !! k = None -> counts_sum (<[k := n]> m) = n + counts_sum m.
Proof.
  intros Hk. unfold counts_sum.
  rewrite map_fold_insert_L; [done | intros; lia | done].
Qed.

Lemma counts_sum_lookup m k n :
  m !! k = Some n -> counts_sum m = n + counts_sum (delete k m).
Proof.
  intros Hk. unfold counts_sum.
  rewrite (map_fold_delete_L _ _ k n m); [done | intros; lia | done].
Qed.

(** Counting one more occurrence adds one to the total. *)
Lemma counts_sum_tally m k : counts_sum (tally k m) = counts_sum m + 1.
Proof.
  unfold tally. destruct (m !! k) as [n|] eqn:Hk; simpl.
  - rewrite <- insert_delete_eq.
    rewrite counts_sum_insert_fresh by apply lookup_delete_eq.
    rewrite (counts_sum_lookup m k n) by done. lia.
  - rewrite counts_sum_insert_fresh by done. lia.
Qed.

Lemma tally_lookup m k j :
  default 0 (tally k m !! j)
  = default 0 (m !! j) + (if decide (k = j) then 1 else 0).
Proof.
  unfold tally. destruct (decide (k = j)) as [->|Hne].
  - by rewrite lookup_insert_eq.
  - rewrite lookup_insert_ne by done. lia.
Qed.

Context {A : Type}.
Variable label : A -> K.

Lemma tally_all_sum (l : list A) m :
  counts_sum (tally_all label l m) = counts_sum m + len l.
Proof.
  unfold tally_all, len. revert m.
  induction l as [|a l IH]; intros m; simpl.
  - lia.
  - rewrite IH, counts_sum_tally. lia.
Qed.

Lemma tally_all_lookup (l : list A) m j :
  default 0 (tally_all label l m !! j)
  = default 0 (m !! j) + len (filter (fun a => label a = j) l).
Proof.
  unfold tally_all, len. revert m.
  induction l as [|a l IH]; intros m; simpl.
  - lia.
  - rewrite IH, tally_lookup, filter_cons.
    destruct (decide (label a = j)); simpl; lia.
Qed.

(** The two tallies of the classifiers are kept side by side. *)
Lemma foldl_two_tallies `{Countable K2} (label2 : A -> K2)
    (l : list A) m (m2 : gmap K2 Z) :
  foldl (fun (acc : gmap K Z * gmap K2 Z) a =>
           (tally (label a) acc.1, tally (label2 a) acc.2)) (m, m2) l
  = (tally_all label l m, tally_all label2 l m2).
Proof.
  unfold tally_all. revert m m2.
  induction l as [|a l IH]; intros m m2; simpl; [done | apply IH].
Qed.
End Tallies.

(** ** The scheme rewrite [url.replace('http://', 'https://')] *)

Section Replace.
Local Abbreviation rewrite_scheme := (str_replace "http://" "https://").
Local Open Scope nat_scope.

Lemma prefix_cons c p d s :
  String.prefix (String c p) (String d s) = true <->
  c = d /\ String.prefix p s = true.
Proof.
  simpl. destruct (ascii_dec c d) as [->|Hne]; split.
  - done.
  - by intros [_ ?].
  - discriminate.
  - by intros [? _].
Qed.

Lemma prefix_app p s : String.prefix p s = true <-> exists t, s = p +:+ t.
Proof.
  revert s. induction p as [|c p IH]; intros s.
  - split; [intros _; by exists s | intros _; by destruct s].
  - destruct s as [|d s].
    + split; [discriminate | by intros [t [=]]].
    + rewrite prefix_cons, IH. split.
      * intros [-> [t ->]]. by exists t.
      * intros [t [= -> ->]]. eauto.
Qed.

Lemma replace_from_skip old new p t :
  replace_from old new (String.length p) (p +:+ t)
  = replace_from old new 0 t.
Proof.
  induction p as [|c p IH]; simpl; [| done].
  destruct t; reflexivity.
Qed.

Lemma rewrite_scheme_match t :
  rewrite_scheme ("http://" +:+ t) = "https://" +:+ rewrite_scheme t.
Proof.
  unfold str_replace.
  change ("http://" +:+ t) with (String "h" ("ttp://" +:+ t)).
  cbn [replace_from].
  replace (String.prefix "http://" (String "h" ("ttp://" +:+ t))) with true
    by (symmetry; apply prefix_app; by exists t).
  by rewrite (replace_from_skip _ _ "ttp://" t).
Qed.

Lemma rewrite_scheme_other c s :
  String.prefix "http://" (String c s) = false ->
  rewrite_scheme (String c s) = String c (rewrite_scheme s).
Proof. unfold str_replace. cbn [replace_from]. by intros ->. Qed.

Lemma rewrite_scheme_after_https t :
  rewrite_scheme ("https://" +:+ t) = "https://" +:+ rewrite_scheme t.
Proof.
  change ("https://" +:+ t) with
    (String "h" (String "t" (String "t" (String "p" (String "s"
       (String ":" (String "/" (String "/" t)))))))).
  by rewrite !rewrite_scheme_other by reflexivity.
Qed.

(** A prefix without [h] survives the rewrite only if it was there
    before. *)
Lemma prefix_of_rewrite u s :
  free_of "h" u ->
  String.prefix u (rewrite_scheme s) = true -> String.prefix u s = true.
Proof.
  revert s. induction u as [|d u IH]; intros s Hfree.
  - by destruct s.
  - destruct Hfree as [Hd Hfree].
    destruct s as [|c s]; [done|].
    destruct (String.prefix "http://" (String c s)) eqn:Hp.
    + apply prefix_app in Hp as [t Ht]. rewrite Ht, rewrite_scheme_match.
      simpl. destruct (ascii_dec d "h"); [done | discriminate].
    + rewrite rewrite_scheme_other by done.
      rewrite !prefix_cons. intros [-> Hu]. split; [done|]. by apply IH.
Qed.

Lemma rewrite_keeps_mismatch c s :
  String.prefix "http://" (String c s) = false ->
  String.prefix "http://" (String c (rewrite_scheme s)) = false.
Proof.
  intros Hp. apply not_true_is_false. intros Hq. 
  apply prefix_cons in Hq as [<- Hq].
  apply prefix_of_rewrite in Hq; [| repeat split; discriminate].
  assert (String.prefix "http://" (String "h" s) = true) by (by apply prefix_cons).
  congruence.
Qed.

Lemma rewrite_scheme_idempotent_len n s :
  (String.length s <= n) ->
  rewrite_scheme (rewrite_scheme s) = rewrite_scheme s.
Proof.
  revert s. induction n as [|n IH]; intros s Hlen.
  - destruct s; [done | simpl in Hlen; lia].
  - destruct s as [|c s]; [done|].
    destruct (String.prefix "http://" (String c s)) eqn:Hp.
    + apply prefix_app in Hp as [t Ht]. rewrite Ht.
      rewrite rewrite_scheme_match, rewrite_scheme_after_https.
      rewrite IH; [done|].
      rewrite Ht in Hlen. change (String.length ("http://" +:+ t)) with (7 + String.length t) in Hlen. lia.
    + rewrite rewrite_scheme_other by done.
      rewrite rewrite_scheme_other by (by apply rewrite_keeps_mismatch).
      rewrite IH; [done|]. simpl in Hlen. lia.
Qed.

Lemma rewrite_scheme_idempotent s :
  rewrite_scheme (rewrite_scheme s) = rewrite_scheme s.
Proof. by apply (rewrite_scheme_idempotent_len (String.length s)). Qed.

Lemma rewrite_scheme_unchanged s :
  ~ occurs "http://" s -> rewrite_scheme s = s.
Proof.
  induction s as [|c s IH]; intros Hno; [done|].
  destruct (String.prefix "http://" (String c s)) eqn:Hp.
  - apply prefix_app in Hp as [t Ht]. destruct Hno. by exists "", t.
  - rewrite rewrite_scheme_other by done. rewrite IH; [done|].
    intros (a & b & ->). apply Hno. by exists (String c a), b.
Qed.
End Replace.

(** ** The explorer of fixed_scraper.py *)

Section FixedExplorer.
Context {W : Type}.
Variable session_get : string -> W -> outcome Fixed.response * W.
Variable netloc : string -> outcome string.
Variable urljoin : string -> string -> outcome string.
Implicit Types s : state W.

Local Abbreviation status_200 :=
  (fun ep : Fixed.entry => Fixed.status_code ep = Some 200).

(** A round of [test_url_variations] never raises. *)
Lemma variation_step_returns base_domain protocol results s :
  exists results' s',
    Fixed.variation_step session_get base_domain protocol results s
    = (Return results', s').
Proof.
  unfold Fixed.variation_step, try_except, bind, call, ret.
  destruct (session_get _ (world s)) as [[resp|e] w]; simpl; eauto.
Qed.

(** [test_url_variations] returns when [urlparse] accepts its URL, and
    raises what [urlparse] raises, before any request. *)
Lemma test_url_variations_returns base_url base_domain s :
  netloc base_url = Return base_domain ->
  exists results s',
    Fixed.test_url_variations session_get netloc base_url s
    = (Return results, s').
Proof.
  intros Hnetloc. unfold Fixed.test_url_variations.
  rewrite (bind_pure_call_Return _ _ _ _ Hnetloc).
  destruct (for_each_returns (fun _ => True) ["https"; "http"]
              (Fixed.variation_step session_get base_domain) ∅ s I)
    as (results & s' & Hloop & _); [| eauto].
  intros protocol results s0 _.
  destruct (variation_step_returns base_domain protocol results s0)
    as (results' & s' & ->). eauto.
Qed.

Lemma test_url_variations_raises base_url e s :
  netloc base_url = Raise e ->
  Fixed.test_url_variations session_get netloc base_url s = (Raise e, s).
Proof.
  intros Hnetloc. unfold Fixed.test_url_variations.
  by rewrite (bind_pure_call_Raise _ _ _ _ Hnetloc).
Qed.

(** A round of [find_working_endpoints] raises what [urljoin] raises,
    before its request; when [urljoin] returns, the round returns, and
    it appends an entry exactly when the answer has status 200. *)
Lemma endpoint_step_raises base_url endpoint working e s :
  urljoin base_url endpoint = Raise e ->
  Fixed.endpoint_step session_get urljoin base_url endpoint working s
  = (Raise e, s).
Proof.
  intros Hjoin. unfold Fixed.endpoint_step.
  by rewrite (bind_pure_call_Raise _ _ _ _ Hjoin).
Qed.

Lemma endpoint_step_returns base_url endpoint test_url working s :
  urljoin base_url endpoint = Return test_url ->
  exists new s',
    Fixed.endpoint_step session_get urljoin base_url endpoint working s
    = (Return (working ++ new), s') /\
    Forall status_200 new /\
    map Fixed.url new `sublist_of` [test_url].
Proof.
  intros Hjoin. unfold Fixed.endpoint_step.
  rewrite (bind_pure_call_Return _ _ _ _ Hjoin).
  unfold try_except, bind, call, ret.
  destruct (session_get _ (world s)) as [[resp|e] w]; simpl.
  - case_bool_decide as Hcode.
    + eexists [_], _. split; [done|]. split.
      * constructor; [| done]. simpl. by rewrite Hcode.
      * done.
    + eexists [], _. rewrite app_nil_r. split; [done|]. split; [done|].
      apply sublist_nil_l.
  - eexists [], _. rewrite app_nil_r. split; [done|]. split; [done|].
    apply sublist_nil_l.
Qed.

Lemma find_working_loop_returns base_url endpoints test_urls working s :
  joined urljoin base_url endpoints test_urls ->
  exists new s',
    for_each endpoints (Fixed.endpoint_step session_get urljoin base_url)
      working s = (Return (working ++ new), s') /\
    Forall status_200 new /\
    map Fixed.url new `sublist_of` test_urls.
Proof.
  intros Hjoined. revert working s.
  induction Hjoined as [|endpoint test_url endpoints test_urls Hjoin _ IH];
    intros working s; simpl.
  - exists [], s. rewrite app_nil_r. done.
  - destruct (endpoint_step_returns base_url endpoint test_url working s Hjoin)
      as (new1 & s1 & Hstep & H200 & Hsub).
    rewrite (bind_Return _ _ _ _ _ Hstep).
    destruct (IH (working ++ new1) s1) as (new2 & s2 & Hloop & H200' & Hsub').
    exists (new1 ++ new2), s2. rewrite app_assoc. split; [done|]. split.
    + by apply Forall_app.
    + rewrite map_app.
      by apply (sublist_app _ [_]).
Qed.

(** [find_working_endpoints] returns when [urljoin] accepts the catalog;
    its entries have status 200 and come in catalog order. *)
Lemma find_working_among_returns endpoints test_urls base_domain s :
  joined urljoin ("https://" +:+ base_domain) endpoints test_urls ->
  exists working s',
    Fixed.find_working_among session_get urljoin endpoints base_domain s
    = (Return working, s') /\
    Forall status_200 working /\
    map Fixed.url working `sublist_of` test_urls.
Proof.
  intros Hjoined. unfold Fixed.find_working_among.
  destruct (find_working_loop_returns ("https://" +:+ base_domain)
              endpoints test_urls [] s Hjoined)
    as (new & s' & Hloop & H200 & Hsub).
  eauto.
Qed.

Lemma filter_status_200 (working : list Fixed.entry) :
  Forall status_200 working -> filter status_200 working = working.
Proof.
  induction 1 as [|ep working Hep _ IH]; [done|].
  rewrite filter_cons_True by done. by rewrite IH.
Qed.

(** Both counts of the [exploration_summary] are the number of working
    endpoints, whatever the number of endpoints tested. *)
Lemma explore_site_structure_returns base_domain netloc_of_base test_urls s :
  netloc ("https://" +:+ base_domain) = Return netloc_of_base ->
  joined urljoin ("https://" +:+ base_domain) Fixed.endpoints_to_test
    test_urls ->
  exists rep s',
    Fixed.explore_site_structure session_get netloc urljoin base_domain s
    = (Return rep, s') /\
    Forall status_200 (Fixed.working_endpoints rep) /\
    Fixed.total_endpoints_tested (Fixed.exploration_summary rep)
      = len (Fixed.working_endpoints rep) /\
    Fixed.working_endpoints_found (Fixed.exploration_summary rep)
      = len (Fixed.working_endpoints rep).
Proof.
  intros Hnetloc Hjoined. unfold Fixed.explore_site_structure.
  destruct (test_url_variations_returns ("https://" +:+ base_domain) _ s
              Hnetloc) as (url_tests & s1 & Hvar).
  rewrite (bind_Return _ _ _ _ _ Hvar).
  destruct (find_working_among_returns Fixed.endpoints_to_test test_urls
              base_domain s1 Hjoined)
    as (working & s2 & Hfind & H200 & _).
  unfold Fixed.find_working_endpoints.
  rewrite (bind_Return _ _ _ _ _ Hfind).
  eexists _, s2. split; [done|]. simpl.
  by rewrite filter_status_200.
Qed.
End FixedExplorer.

(** ** The recommendations of simple_scraper.py *)

Ltac in_list :=
  repeat first [ apply list_elem_of_here | apply list_elem_of_further ].

Section SimpleRecommendations.

(** The list starts with the messages of the exploration rule; the
    other rules add messages of their own after them. *)
Lemma generate_recommendations_split ex rt :
  exists tail,
    Simple.generate_recommendations ex rt
    = exploration_part (Simple.successful (Simple.summary ex)) ++ tail /\
    Forall (fun m => m ∈ msg_retest) tail.
Proof.
  unfold Simple.generate_recommendations, exploration_part,
    msg_no_endpoints, msg_use_working, msg_retest.
  repeat case_bool_decide; cbn [app]; rewrite <- ?app_assoc; cbn [app];
    (eexists; split; [reflexivity |]);
    repeat (constructor; [in_list |]); constructor.
Qed.

Lemma msg_found_prefix n : String.prefix "✅ Found " (msg_found n) = true.
Proof. apply prefix_app. by eexists. Qed.

Lemma msg_found_not_in (l : list string) n :
  Forall (fun m => String.prefix "✅ Found " m = false) l -> msg_found n ∉ l.
Proof.
  intros Hl Hin. rewrite Forall_forall in Hl. apply Hl in Hin.
  by rewrite msg_found_prefix in Hin.
Qed.

Lemma msg_retest_not_found :
  Forall (fun m => String.prefix "✅ Found " m = false) msg_retest.
Proof. repeat constructor. Qed.

Lemma msg_no_endpoints_not_found :
  Forall (fun m => String.prefix "✅ Found " m = false) msg_no_endpoints.
Proof. repeat constructor. Qed.

Lemma msg_no_endpoints_not_retest m :
  m ∈ msg_no_endpoints ->
  (m ∉ msg_retest) /\ m <> msg_use_working
  /\ String.prefix "✅ Found " m = false.
Proof.
  intros Hm. unfold msg_no_endpoints in Hm.
  rewrite !elem_of_cons, elem_of_nil in Hm.
  unfold msg_retest, msg_use_working.
  destruct Hm as [->|[->|[->|[]]]];
    (split; [| split; [discriminate | reflexivity]]);
    rewrite !not_elem_of_cons; repeat split;
      first [discriminate | apply not_elem_of_nil].
Qed.
End SimpleRecommendations.

(** ** The persistence step *)

Section SimplePersistence.
Context {W : Type}.
Variable makedirs : string -> W -> outcome unit * W.
Variable dump_json : string -> Simple.DetailedResults -> W -> outcome unit * W.
Implicit Types s : state W.

Local Abbreviation save_results := (Simple.save_results makedirs dump_json).

(** A failed write is caught: the warning is printed, then the
    conclusion, and the step returns. *)
Lemma simple_save_results_caught doc s w1 e w2 :
  makedirs "scraping_output" (world s) = (Return tt, w1) ->
  dump_json "scraping_output/detailed_analysis.json" doc w1 = (Raise e, w2) ->
  save_results doc s
  = (Return tt,
     {| world := w2;
        stdout := stdout s ++
          [ nl +:+ "⚠️  Warning: Could not save results to file: "
               +:+ str_exn e;
            "   Results are still displayed above." ] ++ conclusion |}).
Proof.
  intros Hdir Hdump.
  unfold Simple.save_results, try_except, bind, call, print, conclusion.
  simpl. rewrite Hdir. simpl.
  change (Simple.path_join "scraping_output" "detailed_analysis.json")
    with "scraping_output/detailed_analysis.json".
  rewrite Hdump. simpl. by rewrite <- !app_assoc.
Qed.

Lemma simple_save_results_saved doc s w1 w2 :
  makedirs "scraping_output" (world s) = (Return tt, w1) ->
  dump_json "scraping_output/detailed_analysis.json" doc w1 = (Return tt, w2) ->
  save_results doc s
  = (Return tt,
     {| world := w2;
        stdout := stdout s ++
          [ nl +:+ "💾 Detailed results saved to: "
               +:+ "scraping_output/detailed_analysis.json" ]
          ++ conclusion |}).
Proof.
  intros Hdir Hdump.
  unfold Simple.save_results, try_except, bind, call, print, conclusion.
  simpl. rewrite Hdir. simpl.
  change (Simple.path_join "scraping_output" "detailed_analysis.json")
    with "scraping_output/detailed_analysis.json".
  rewrite Hdump. simpl. by rewrite <- !app_assoc.
Qed.

(** [os.makedirs] is called before the [try]: its failure is not
    caught. *)
Lemma simple_save_results_makedirs_raises doc s e w1 :
  makedirs "scraping_output" (world s) = (Raise e, w1) ->
  save_results doc s = (Raise e, {| world := w1; stdout := stdout s |}).
Proof.
  intros Hdir. unfold Simple.save_results, bind, call.
  simpl. by rewrite Hdir.
Qed.
End SimplePersistence.

Section FixedPersistence.
Context {W : Type}.
Variable dump_json : string -> Fixed.SavedResults -> W -> outcome unit * W.
Implicit Types s : state W.

(** The write of [Fixed.main] is not inside a [try]: its failure ends
    the script. *)
Lemma fixed_save_results_raises doc s e w1 :
  dump_json "/workspace/scraping_results.json" doc (world s) = (Raise e, w1) ->
  Fixed.save_results dump_json doc s
  = (Raise e, {| world := w1; stdout := stdout s |}).
Proof.
  intros Hdump. unfold Fixed.save_results, bind, call.
  simpl. by rewrite Hdump.
Qed.
End FixedPersistence.

(** ** The retester and the recommendations of fixed_scraper.py *)

Section FixedRetester.
Context {W : Type}.
Variable session_get : string -> W -> outcome Fixed.response * W.
Variable urljoin : string -> string -> outcome string.
Implicit Types s : state W.

Local Abbreviation rewrite_scheme := (str_replace "http://" "https://").
Local Abbreviation status_200 :=
  (fun e : Fixed.entry => Fixed.status_code e = Some 200).
Local Abbreviation status_other :=
  (fun e : Fixed.entry => Fixed.status_code e <> Some 200).

(** [find_working_endpoints] is a filter over the answers of the
    catalog. *)
Lemma find_working_loop_answers base_url endpoints test_urls working s :
  joined urljoin base_url endpoints test_urls ->
  exists s',
    for_each endpoints (Fixed.endpoint_step session_get urljoin base_url)
      working s
    = (Return (working ++
               omap working_entry
                 (answers session_get test_urls (world s))), s').
Proof.
  intros Hjoined. revert working s.
  induction Hjoined as [|endpoint test_url endpoints test_urls Hjoin _ IH];
    intros working s; simpl.
  - exists s. by rewrite app_nil_r.
  - unfold bind at 1.
    unfold Fixed.endpoint_step at 1.
    rewrite (bind_pure_call_Return _ _ _ _ Hjoin).
    unfold try_except, bind, call, ret.
    unfold working_entry at 1. simpl.
    destruct (session_get test_url (world s)) as [[resp|e] w]; simpl.
    + case_bool_decide as Hcode; simpl.
      * destruct (IH (working ++
                      [ {| Fixed.url := test_url;
                           Fixed.status_code :=
                             Some (Fixed.response_status_code resp);
                           Fixed.content_length :=
                             Some (len (Fixed.content resp));
                           Fixed.content_preview :=
                             Some (Fixed.preview 300 resp);
                           Fixed.error := None |} ])
                    {| world := w; stdout := stdout s |}) as (s' & ->).
        exists s'. rewrite Hcode. by rewrite <- app_assoc.
      * apply (IH working {| world := w; stdout := stdout s |}).
    + apply (IH working {| world := w; stdout := stdout s |}).
Qed.

(** A round of the retester that returns made one request and one entry,
    which went to [successful_scrapes] when its status is 200 and to
    [failed_scrapes] otherwise. *)
Lemma fixed_scrape_step_inv u acc s acc' s' :
  Fixed.scrape_step session_get u acc s = (Return acc', s') ->
  exists e,
    made_for u (session_get (rewrite_scheme u) (world s)).1 e /\
    acc' = (acc.1 ++ filter status_200 [e],
            acc.2 ++ filter status_other [e]) /\
    s' = after_request session_get (rewrite_scheme u) s.
Proof.
  unfold Fixed.scrape_step, try_except, bind, call, ret, raise, made_for,
    after_request.
  destruct (session_get _ (world s)) as [[resp|e] w]; cbn [fst snd].
  - case_bool_decide as Hcode; intros [= <- <-].
    + exists {| Fixed.url := rewrite_scheme u;
                Fixed.status_code := Some (Fixed.response_status_code resp);
                Fixed.content_length := Some (len (Fixed.content resp));
                Fixed.content_preview := Some (Fixed.preview 500 resp);
                Fixed.error := None |}.
      split; [split; reflexivity |]. split; [| reflexivity].
      rewrite filter_cons_True by (cbn; by rewrite Hcode).
      rewrite filter_cons_False by (cbn; rewrite Hcode; by intros []).
      by rewrite !filter_nil, app_nil_r.
    + exists {| Fixed.url := rewrite_scheme u;
                Fixed.status_code := Some (Fixed.response_status_code resp);
                Fixed.content_length := None;
                Fixed.content_preview := None;
                Fixed.error :=
                  Some ("HTTP " +:+
                        pretty (Fixed.response_status_code resp)) |}.
      split; [split; reflexivity |]. split; [| reflexivity].
      rewrite filter_cons_False by (cbn; congruence).
      rewrite filter_cons_True by (cbn; congruence).
      by rewrite !filter_nil, app_nil_r.
  - destruct e as [| msg | |]; intros [= <- <-].
    exists {| Fixed.url := u;
              Fixed.status_code := None;
              Fixed.content_length := None;
              Fixed.content_preview := None;
              Fixed.error := Some msg |}.
    split; [repeat split; reflexivity |]. split; [| reflexivity].
    rewrite filter_cons_False by (cbn; congruence).
    rewrite filter_cons_True by (cbn; congruence).
    by rewrite !filter_nil, app_nil_r.
Qed.

(** The loop of the retester makes one entry for each input URL, in
    input order, from the answer to the request for its rewritten URL. *)
Lemma fixed_scrape_loop_inv urls acc s acc' s' :
  for_each urls (Fixed.scrape_step session_get) acc s = (Return acc', s') ->
  exists entries,
    Forall3 made_for urls
      (answers session_get (map rewrite_scheme urls) (world s)).*2 entries /\
    acc' = (acc.1 ++ filter status_200 entries,
            acc.2 ++ filter status_other entries).
Proof.
  revert acc s. induction urls as [|u urls IH]; intros acc s; simpl.
  - intros [= <- <-]. exists []. split; [constructor |].
    rewrite !filter_nil, !app_nil_r. by destruct acc.
  - intros H. apply bind_inv_Return in H as (acc1 & s1 & Hstep & H).
    apply fixed_scrape_step_inv in Hstep as (e & Hmade & -> & ->).
    apply IH in H as (entries & Hall & ->). simpl.
    exists (e :: entries). split; [by constructor |].
    rewrite <- !app_assoc.
    by rewrite <- !(filter_app _ [e] entries).
Qed.

Lemma filter_partition_length (entries : list Fixed.entry) :
  (length (filter status_200 entries) + length (filter status_other entries)
   = length entries)%nat.
Proof.
  induction entries as [|e entries IH]; [done |].
  destruct (decide (Fixed.status_code e = Some 200)) as [Hcode | Hcode].
  - rewrite filter_cons_True by done.
    rewrite filter_cons_False by (intros Hne; by apply Hne).
    simpl. lia.
  - rewrite filter_cons_False by done.
    rewrite filter_cons_True by done.
    simpl. lia.
Qed.

Lemma fixed_scrape_loop_length urls acc s acc' s' :
  for_each urls (Fixed.scrape_step session_get) acc s = (Return acc', s') ->
  exists ok bad,
    acc' = (acc.1 ++ ok, acc.2 ++ bad) /\
    (length ok + length bad = length urls)%nat.
Proof.
  intros H. apply fixed_scrape_loop_inv in H as (entries & Hall & ->).
  eexists _, _. split; [reflexivity |].
  rewrite filter_partition_length.
  apply Forall3_length_lr in Hall. done.
Qed.

Lemma fixed_scrape_returns urls s :
  only_request_exceptions session_get ->
  exists rep s',
    Fixed.scrape_with_error_handling session_get urls s = (Return rep, s').
Proof.
  intros Honly. unfold Fixed.scrape_with_error_handling.
  destruct (for_each_returns (fun _ => True) urls
              (Fixed.scrape_step session_get) ([], []) s I)
    as (acc & s1 & Hloop & _).
  - intros u acc s0 _.
    unfold Fixed.scrape_step, try_except, bind, call, ret, raise.
    pose proof (Honly (rewrite_scheme u) (world s0)) as Hexn.
    destruct (session_get _ (world s0)) as [[resp|e] w]; simpl.
    + case_bool_decide; eauto.
    + destruct (Hexn e eq_refl) as [msg ->]. eauto.
  - rewrite (bind_Return _ _ _ _ _ Hloop). unfold ret. eauto.
Qed.

(** The list starts with the messages of the rule on the successful
    scrapes, when there is none; the rules on status codes add their
    own after them. *)
Lemma fixed_recommendations_split results :
  exists tail,
    Fixed._generate_recommendations results
    = (if Fixed.successful_scrapes results is [] then fixed_msg_no_success
       else []) ++ tail /\
    Forall (fun m => m ∈ fixed_msg_status) tail.
Proof.
  unfold Fixed._generate_recommendations, fixed_msg_no_success,
    fixed_msg_status.
  destruct (Fixed.successful_scrapes results);
    repeat case_bool_decide; cbn [app]; rewrite <- ?app_assoc; cbn [app];
    (eexists; split; [reflexivity |]);
    repeat (constructor; [in_list |]); constructor.
Qed.

Lemma fixed_messages_not_found :
  Forall (fun m => String.prefix "✅ Found " m = false /\ m <> msg_use_working)
    (fixed_msg_no_success ++ fixed_msg_status).
Proof. repeat constructor; discriminate. Qed.
End FixedRetester.

(** ** Properties of the reports *)

(** The counts of the [summary] of [Simple.explore_site] are the lengths
    of its two lists, for every list of candidate URLs, the empty one
    included. *)
Lemma simple_summary_counts {W}
    (urlopen : string -> W -> outcome Simple.response * W)
    (urls : list string) (s : state W) rep s' :
  Simple.explore_urls urlopen urls s = (Return rep, s') ->
  Simple.successful (Simple.summary rep) = len (Simple.working_endpoints rep) /\
  Simple.total_tested (Simple.summary rep) = len (Simple.all_tests rep) /\
  len (Simple.all_tests rep) = len urls.
Proof.
  intros Hrun. apply explore_urls_inv in Hrun as (Hurls & _ & ->).
  simpl. repeat split. unfold len. by rewrite <- Hurls, length_map.
Qed.

Lemma simple_summary_counts_empty {W}
    (urlopen : string -> W -> outcome Simple.response * W) (s : state W) :
  Simple.explore_urls urlopen [] s
  = (Return {| Simple.all_tests := [];
               Simple.working_endpoints := [];
               Simple.summary := {| Simple.total_tested := 0;
                                    Simple.successful := 0;
                                    Simple.failed := 0 |} |}, s).
Proof. reflexivity. Qed.

(** C1, on fixed_scraper.py: when every endpoint of the catalog answers
    404, the 2 base URLs and the 23 endpoints are requested, yet
    [total_endpoints_tested] is 0, the number of working endpoints, not
    the number of endpoints tested. *)
Theorem C1_fixed_total_tested_counts_only_working :
  exists rep s',
    Fixed.explore_site_structure
      (Stub.session_get Stub.not_found_response) Stub.netloc Stub.urljoin
      "www.d2pbuyersguide.com" Stub.start = (Return rep, s') /\
    length (world s') = 25%nat /\
    len Fixed.endpoints_to_test = 23 /\
    Fixed.working_endpoints rep = [] /\
    Fixed.total_endpoints_tested (Fixed.exploration_summary rep) = 0.
Proof. eexists _, _. split; [vm_compute; reflexivity | done]. Qed.

(** C2: on the empty list the retester does not return a report: the
    division of the success rate raises [ZeroDivisionError]. *)
Theorem C2_empty_retest_divides_by_zero {W}
    (urlopen : string -> W -> outcome Simple.response * W)
    (percent_1f : Z -> Z -> string) (s : state W) :
  Simple.scrape_original_urls urlopen percent_1f [] s
  = (Raise ZeroDivisionError, s).
Proof. reflexivity. Qed.

(** On a non-empty list the success rate is the rendering of
    [successful / total * 100]. *)
Lemma simple_success_rate {W}
    (urlopen : string -> W -> outcome Simple.response * W)
    (percent_1f : Z -> Z -> string) urls (s : state W) rep s' :
  Simple.scrape_original_urls urlopen percent_1f urls s = (Return rep, s') ->
  0 < Simple.total (Simple.retest_summary rep) /\
  Simple.success_rate (Simple.retest_summary rep)
  = percent_1f (Simple.n_successful (Simple.retest_summary rep))
               (Simple.total (Simple.retest_summary rep)).
Proof.
  intros Hrun.
  apply scrape_original_urls_inv in Hrun as (Hne & _ & Horig & _ & _ & ->).
  simpl. split; [| done].
  destruct (Simple.all_results rep); [by destruct urls | unfold len; simpl; lia].
Qed.

(** C3: the report of [Simple.explore_site] lists the probes in catalog
    order, and [working_endpoints] is the sublist of [all_tests] of the
    results with [success] true and [status_code] 200; the exploration
    returns its report whenever the bodies of error responses can be read.
    [Fixed.find_working_endpoints] keeps no list of all probes: whenever
    [urljoin] returns a URL for each endpoint of the catalog, it returns,
    with one entry for each answer to these URLs that is a response with
    status 200, in catalog order. *)
Theorem C3_working_endpoints_are_200_successes {W} :
  (forall (urlopen : string -> W -> outcome Simple.response * W)
          (urls : list string) (s : state W),
     (forall rep s',
        Simple.explore_urls urlopen urls s = (Return rep, s') ->
        map Simple.url (Simple.all_tests rep) = urls /\
        Simple.working_endpoints rep
        = List.filter
            (fun r => Simple.success r
                      && bool_decide (Simple.status_code r = Some 200))
            (Simple.all_tests rep)) /\
     (error_bodies_readable urlopen ->
      exists rep s', Simple.explore_urls urlopen urls s = (Return rep, s'))) /\
  (forall (session_get : string -> W -> outcome Fixed.response * W)
          (urljoin : string -> string -> outcome string)
          (endpoints test_urls : list string) (base_domain : string)
          (s : state W),
     joined urljoin ("https://" +:+ base_domain) endpoints test_urls ->
     exists s',
       Fixed.find_working_among session_get urljoin endpoints base_domain s
       = (Return
            (omap working_entry (answers session_get test_urls (world s))),
          s')).
Proof.
  split.
  - intros urlopen urls s. split.
    + intros rep s' Hrun. by apply explore_urls_inv in Hrun as (? & ? & _).
    + apply explore_urls_returns.
  - intros session_get urljoin endpoints test_urls base_domain s Hjoined.
    apply (find_working_loop_answers session_get urljoin _ endpoints
             test_urls [] s Hjoined).
Qed.

(** C4, as the scripts have it.  In simple_scraper.py, with zero
    successes of the explorer the recommendations contain the "no working
    endpoints" messages and no "Found N working endpoints" message;
    otherwise they contain "Found N working endpoints" and "Use the
    working endpoints" and none of the "no working endpoints" messages.
    fixed_scraper.py has no rule on the exploration: its recommendations
    contain the "No successful scrapes" messages when the retest has no
    successful scrape, and never a "Found N working endpoints" or "Use the
    working endpoints" message. *)
Theorem C4_exploration_rule_of_recommendations :
  (forall (ex : Simple.ExplorationReport) (rt : Simple.RetestReport),
     let recs := Simple.generate_recommendations ex rt in
     let n := Simple.successful (Simple.summary ex) in
     (n = 0 ->
      (forall m, m ∈ msg_no_endpoints -> m ∈ recs) /\
      (forall k, msg_found k ∉ recs)) /\
     (n <> 0 ->
      msg_found n ∈ recs /\ msg_use_working ∈ recs /\
      (forall m, m ∈ msg_no_endpoints -> m ∉ recs))) /\
  (forall results : Fixed.ScrapeResults,
     let recs := Fixed._generate_recommendations results in
     (Fixed.successful_scrapes results = [] ->
      forall m, m ∈ fixed_msg_no_success -> m ∈ recs) /\
     (forall k, msg_found k ∉ recs) /\
     (msg_use_working ∉ recs)).
Proof.
  split.
  - intros ex rt recs n. subst recs n.
    destruct (generate_recommendations_split ex rt) as (tail & -> & Htail).
    unfold exploration_part. split; intros Hn; case_bool_decide; try done.
    + split.
      * intros m Hm. apply elem_of_app. by left.
      * intros k. apply msg_found_not_in, Forall_app. split.
        -- apply msg_no_endpoints_not_found.
        -- rewrite Forall_forall in Htail. apply Forall_forall. intros m Hm.
           pose proof msg_retest_not_found as Hr. rewrite Forall_forall in Hr.
           by apply Hr, Htail.
    + split; [apply elem_of_app; left; in_list |].
      split; [apply elem_of_app; left; in_list |].
      intros m Hm. apply msg_no_endpoints_not_retest in Hm as (Hr & Hu & Hf).
      rewrite not_elem_of_app, !not_elem_of_cons. repeat split.
      * intros ->. by rewrite msg_found_prefix in Hf.
      * done.
      * apply not_elem_of_nil.
      * rewrite Forall_forall in Htail. intros Hm. by apply Hr, Htail.
  - intros results recs. subst recs.
    destruct (fixed_recommendations_split results) as (tail & Hrecs & Htail).
    assert (Hall : Forall (fun m => String.prefix "✅ Found " m = false /\
                                    m <> msg_use_working)
                     (Fixed._generate_recommendations results)).
    { pose proof fixed_messages_not_found as Hmsgs.
      rewrite Forall_forall in Hmsgs, Htail. rewrite Hrecs.
      apply Forall_forall. intros m Hm. apply Hmsgs.
      apply elem_of_app in Hm as [Hm | Hm].
      - apply elem_of_app. left.
        destruct (Fixed.successful_scrapes results); [done |].
        by apply elem_of_nil in Hm.
      - apply elem_of_app. right. by apply Htail. }
    rewrite Forall_forall in Hall. repeat split.
    + intros Hnone m Hm. rewrite Hrecs, Hnone. apply elem_of_app. by left.
    + intros k Hin. apply Hall in Hin as [Hin _].
      by rewrite msg_found_prefix in Hin.
    + intros Hin. by apply Hall in Hin as [_ Hin].
Qed.

(** C4 as stated fails on fixed_scraper.py: with a successful scrape and
    no failure its recommendations are empty, so they contain neither a
    "Found N working endpoints" nor the "Use the working endpoints"
    message. *)
Lemma C4_counterexample_fixed_emits_nothing_on_success :
  let results :=
    {| Fixed.successful_scrapes := [Stub.page_1_found];
       Fixed.failed_scrapes := [];
       Fixed.error_summary := Fixed._analyze_errors [];
       Fixed.recommendations := [] |} in
  Fixed.successful_scrapes results <> [] /\
  Fixed._generate_recommendations results = [] /\
  ~ (msg_found 1 ∈ Fixed._generate_recommendations results /\
     msg_use_working ∈ Fixed._generate_recommendations results).
Proof.
  intros results. split; [discriminate |].
  split; [vm_compute; reflexivity |].
  intros [Hin _]. vm_compute in Hin. by apply elem_of_nil in Hin.
Qed.

(** C5: in both scripts the counts by error message sum to
    [total_failures], so do the counts by status code, and
    [total_failures] is the length of the list; the count under a label
    is the number of results with that label, a missing key counting
    under ["Unknown"]. *)
Theorem C5_tallies_sum_to_total_failures :
  (forall l : list Simple.result,
     let ea := Simple.analyze_errors l in
     Simple.total_failures ea = len l /\
     counts_sum (Simple.error_types ea) = Simple.total_failures ea /\
     counts_sum (Simple.status_codes ea) = Simple.total_failures ea /\
     (forall k, default 0 (Simple.error_types ea !! k)
        = len (filter (fun r => default "Unknown" (Simple.error r) = k) l)) /\
     (forall k, default 0 (Simple.status_codes ea !! k)
        = len (filter (fun r => from_option KInt (KStr "Unknown")
                                  (Simple.status_code r) = k) l))) /\
  (forall l : list Fixed.entry,
     let ea := Fixed._analyze_errors l in
     Fixed.total_failures ea = len l /\
     counts_sum (Fixed.error_types ea) = Fixed.total_failures ea /\
     counts_sum (Fixed.status_codes ea) = Fixed.total_failures ea /\
     (forall k, default 0 (Fixed.error_types ea !! k)
        = len (filter (fun r => default "Unknown" (Fixed.error r) = k) l)) /\
     (forall k, default 0 (Fixed.status_codes ea !! k)
        = len (filter (fun r => from_option KInt (KStr "Unknown")
                                  (Fixed.status_code r) = k) l))).
Proof.
  split; intros l ea; subst ea;
    unfold Simple.analyze_errors, Fixed._analyze_errors; simpl;
    rewrite foldl_two_tallies; simpl;
    rewrite !tally_all_sum, !counts_sum_empty;
    repeat split; try lia;
    intros k; rewrite tally_all_lookup, lookup_empty; simpl; lia.
Qed.

(** When the body of every error response can be read, no probe raises:
    every failure becomes a result with [success] false. *)
Lemma simple_test_url_never_raises {W}
    (urlopen : string -> W -> outcome Simple.response * W) u (s : state W) :
  error_bodies_readable urlopen ->
  exists r, Simple.test_url urlopen u s = (Return r, after_request urlopen u s).
Proof.
  intros Hread.
  destruct (test_url_returns urlopen u s (Hread u (world s))) as (r & Hr & _).
  eauto.
Qed.

(** C6, on simple_scraper.py: [/index.html] answers 404 and the read of
    its body times out.  The exception leaves [test_url], and
    [explore_site] stops at this fourth probe of twenty without a
    report. *)
Theorem C6_unreadable_error_body_aborts_run :
  Simple.test_url (Stub.urlopen Stub.stalled)
    "https://example.test/index.html" Stub.start
  = (Raise (OtherException "The read operation timed out"),
     {| world := ["https://example.test/index.html"]; stdout := [] |}) /\
  Simple.explore_site (Stub.urlopen Stub.stalled) "example.test" Stub.start
  = (Raise (OtherException "The read operation timed out"),
     {| world := [ "https://example.test";
                   "http://example.test";
                   "https://example.test/";
                   "https://example.test/index.html" ];
        stdout := [] |}).
Proof. split; vm_compute; reflexivity. Qed.

(** C7, as the scripts have it.  In simple_scraper.py every element of
    [all_results] carries under [original_url] the input URL it was made
    for, in input order, and the retest of a non-empty list returns its
    report whenever the bodies of error responses can be read.
    fixed_scraper.py has no [all_results] and no [original_url]: each
    input URL gives one entry, in input order, made from the answer of
    the network to the request for its rewritten URL; the entry is in
    [successful_scrapes] when its status is 200 and in [failed_scrapes]
    otherwise, and it carries under [url] the rewritten URL when the
    answer was a response and the input URL when it was a
    [RequestException]. *)
Theorem C7_results_carry_original_url {W} :
  (forall (urlopen : string -> W -> outcome Simple.response * W)
          (percent_1f : Z -> Z -> string) (urls : list string) (s : state W),
     (forall rep s',
        Simple.scrape_original_urls urlopen percent_1f urls s
        = (Return rep, s') ->
        map Simple.original_url (Simple.all_results rep) = map Some urls) /\
     (error_bodies_readable urlopen -> urls <> [] ->
      exists rep s',
        Simple.scrape_original_urls urlopen percent_1f urls s
        = (Return rep, s'))) /\
  (forall (session_get : string -> W -> outcome Fixed.response * W)
          (urls : list string) (s : state W),
     (forall rep s',
        Fixed.scrape_with_error_handling session_get urls s
        = (Return rep, s') ->
        exists entries,
          Forall3 made_for urls
            (answers session_get
               (map (str_replace "http://" "https://") urls) (world s)).*2
            entries /\
          Fixed.successful_scrapes rep
          = filter (fun e => Fixed.status_code e = Some 200) entries /\
          Fixed.failed_scrapes rep
          = filter (fun e => Fixed.status_code e <> Some 200) entries) /\
     (only_request_exceptions session_get ->
      exists rep s',
        Fixed.scrape_with_error_handling session_get urls s
        = (Return rep, s'))).
Proof.
  split.
  - intros urlopen percent_1f urls s. split.
    + intros rep s' Hrun.
      by apply scrape_original_urls_inv in Hrun as (_ & _ & ? & _).
    + apply scrape_original_urls_returns.
  - intros session_get urls s. split.
    + intros rep s' Hrun. unfold Fixed.scrape_with_error_handling in Hrun.
      apply bind_inv_Return in Hrun as (acc & s1 & Hloop & [= <- <-]).
      apply fixed_scrape_loop_inv in Hloop as (entries & Hall & ->).
      exists entries. by simpl.
    + apply fixed_scrape_returns.
Qed.

(** C7 as stated fails on fixed_scraper.py: the entry made for an
    [http://] URL that answers 404 carries the rewritten URL, not the
    input URL. *)
Lemma C7_counterexample_fixed_records_rewritten_url :
  let u := "http://www.d2pbuyersguide.com/filter/all/page/1" in
  exists rep s',
    Fixed.scrape_with_error_handling
      (Stub.session_get Stub.not_found_response) [u] Stub.start
    = (Return rep, s') /\
    map Fixed.url (Fixed.successful_scrapes rep ++ Fixed.failed_scrapes rep)
    = ["https://www.d2pbuyersguide.com/filter/all/page/1"] /\
    map Fixed.url (Fixed.successful_scrapes rep ++ Fixed.failed_scrapes rep)
    <> [u].
Proof.
  intros u. eexists _, _. split; [vm_compute; reflexivity |].
  split; [reflexivity | discriminate].
Qed.

(** C8: a URL that already uses https and embeds an [http://] URL in its
    path is not left unchanged: the embedded scheme is rewritten, and the
    rewritten URL is the one the retester requests. *)
Theorem C8_embedded_http_is_rewritten :
  let u := "https://web.archive.org/web/2020/http://www.d2pbuyersguide.com/" in
  let u' := "https://web.archive.org/web/2020/https://www.d2pbuyersguide.com/" in
  str_replace "http://" "https://" u = u' /\ u' <> u /\
  world (Simple.scrape_original_urls (Stub.urlopen Stub.not_found)
           Stub.percent_1f [u] Stub.start).2 = [u'].
Proof.
  intros u u'. split; [vm_compute; reflexivity |].
  split; [discriminate | vm_compute; reflexivity].
Qed.

(** C9, on fixed_scraper.py: when the report cannot be written, [main]
    ends with the exception of the write; nothing is printed after it. *)
Theorem C9_fixed_main_aborts_on_write_failure :
  let run := Fixed.main (Stub.session_get Stub.not_found_response)
               Stub.netloc Stub.urljoin Stub.dump_denied Stub.start in
  run.1 = Raise (OtherException
            "[Errno 13] Permission denied: '/workspace/scraping_results.json'")
  /\ stdout run.2 = [].
Proof. split; vm_compute; reflexivity. Qed.

(** C10: a dictionary returned by [test_url] has [success] true and no
    [error] key exactly when the request raised nothing; otherwise it has
    [success] false and an [error] key; its [status_code] key is missing
    exactly when the exception was not an [HTTPError]. *)
Theorem C10_prober_dictionary_keys {W}
    (urlopen : string -> W -> outcome Simple.response * W)
    (u : string) (s : state W) r s' :
  Simple.test_url urlopen u s = (Return r, s') ->
  let a := attempt_of (urlopen u (world s)).1 in
  (Simple.success r = true /\ Simple.error r = None <-> a = NoException) /\
  (Simple.success r = false /\ is_Some (Simple.error r) <-> a <> NoException) /\
  (Simple.status_code r = None <-> a = OtherFailure).
Proof.
  intros Hrun a. subst a.
  apply test_url_shape in Hrun as (_ & _ & Hshape).
  destruct (attempt_of _); destruct Hshape as (Hs & He & Hc);
    unfold is_Some in *;
    repeat match goal with H : exists _, _ |- _ => destruct H as [? H] end;
    rewrite Hs, He, Hc;
    repeat split; intros; try discriminate; try done; eauto.
  all: repeat match goal with
              | H : _ /\ _ |- _ => destruct H
              | H : exists _, _ |- _ => destruct H
              end; discriminate.
Qed.

(** What the scheme rewrite does keep: it is idempotent, it turns a
    leading [http://] into [https://], and it leaves alone a URL in which
    [http://] does not occur. *)
Lemma rewrite_scheme_plain_http t :
  ~ occurs "http://" t ->
  str_replace "http://" "https://" ("http://" +:+ t) = "https://" +:+ t.
Proof.
  intros Hno. by rewrite rewrite_scheme_match, rewrite_scheme_unchanged.
Qed.

Lemma rewrite_scheme_plain_https t :
  ~ occurs "http://" t ->
  str_replace "http://" "https://" ("https://" +:+ t) = "https://" +:+ t.
Proof.
  intros Hno. by rewrite rewrite_scheme_after_https, rewrite_scheme_unchanged.
Qed.

(** ** The scripts on scripted worlds *)

Lemma example_test_readable :
  error_bodies_readable (Stub.urlopen Stub.example_test).
Proof.
  intros u w. unfold Stub.urlopen, Stub.example_test, Stub.not_found. simpl.
  repeat (case_bool_decide; simpl); reflexivity.
Qed.

Lemma example_test_response_only_requests :
  only_request_exceptions (Stub.session_get Stub.example_test_response).
Proof.
  intros u w e.
  unfold Stub.session_get, Stub.example_test_response,
    Stub.not_found_response.
  simpl. repeat case_bool_decide; intros [= <-]; eauto.
Qed.

(** A host name with a bracket that is not closed: [urlparse] raises
    [ValueError] in [test_url_variations] before any request, and so does
    [urljoin] in [find_working_endpoints]; neither call is inside a
    [try]. *)
Example explore_unclosed_bracket :
  Fixed.explore_site_structure (Stub.session_get Stub.not_found_response)
    Stub.netloc Stub.urljoin "[bad" Stub.start
  = (Raise (OtherException "Invalid IPv6 URL"), Stub.start) /\
  Fixed.find_working_endpoints (Stub.session_get Stub.not_found_response)
    Stub.urljoin "[bad" Stub.start
  = (Raise (OtherException "Invalid IPv6 URL"), Stub.start).
Proof. split; vm_compute; reflexivity. Qed.

(** Two endpoints answer 200 and the others 404: two successes, listed
    in catalog order. *)
Example explore_example_test :
  exists rep s',
    Simple.explore_site (Stub.urlopen Stub.example_test) "example.test"
      Stub.start = (Return rep, s') /\
    Simple.successful (Simple.summary rep) = 2 /\
    Simple.total_tested (Simple.summary rep) = 20 /\
    map Simple.url (Simple.working_endpoints rep)
    = ["https://example.test/"; "https://example.test/products"].
Proof. eexists _, _. split; [vm_compute; reflexivity | done]. Qed.

(** The 25 pagination URLs all answer 404: the recommendations name the
    failed pagination URLs and the 404 errors. *)
Example retest_all_not_found :
  exists ex rt s1 s2,
    Simple.explore_site (Stub.urlopen Stub.not_found)
      "www.d2pbuyersguide.com" Stub.start = (Return ex, s1) /\
    Simple.scrape_original_urls (Stub.urlopen Stub.not_found) Stub.percent_1f
      Simple.original_urls s1 = (Return rt, s2) /\
    Simple.n_failed (Simple.retest_summary rt) = 25 /\
    Simple.generate_recommendations ex rt
    = msg_no_endpoints ++
      [ "❌ All original pagination URLs failed";
        "🔍 The pagination structure has likely changed";
        "📋 Try using the working endpoints found during exploration";
        "🔧 404 errors confirm URL structure has changed" ].
Proof.
  eexists _, _, _, _.
  split; [vm_compute; reflexivity |].
  split; [vm_compute; reflexivity |].
  split; [reflexivity | vm_compute; reflexivity].
Qed.

(** A name that does not resolve: the result has [success] false, no
    [status_code], the text of the exception under [error], and is counted
    under that text. *)
Example probe_unknown_host :
  exists r s',
    Simple.test_url (Stub.urlopen Stub.example_test)
      "https://unknown.invalid/" Stub.start = (Return r, s') /\
    Simple.success r = false /\
    Simple.status_code r = None /\
    Simple.error r
    = Some "<urlopen error [Errno -2] Name or service not known>" /\
    Simple.content_preview r = "No content" /\
    Simple.error_types (Simple.analyze_errors [r])
      !! "<urlopen error [Errno -2] Name or service not known>" = Some 1.
Proof.
  eexists _, _. split; [vm_compute; reflexivity |].
  repeat split; vm_compute; reflexivity.
Qed.

(** A refused write in [Simple.main]: the warning and the conclusion are
    printed and [main] returns. *)
Example simple_main_write_denied :
  Simple.main (Stub.urlopen Stub.not_found) Stub.percent_1f Stub.strftime
    Stub.makedirs Stub.dump_denied Stub.start
  = (Return tt,
     {| world := world (Simple.main (Stub.urlopen Stub.not_found)
                          Stub.percent_1f Stub.strftime Stub.makedirs
                          Stub.dump_ok Stub.start).2;
        stdout :=
          [ nl +:+ "⚠️  Warning: Could not save results to file: "
               +:+ "[Errno 13] Permission denied: "
               +:+ "'scraping_output/detailed_analysis.json'";
            "   Results are still displayed above." ] ++ conclusion |}).
Proof. vm_compute. reflexivity. Qed.

(** ** Instances *)

Lemma C3_witness :
  (error_bodies_readable (Stub.urlopen Stub.example_test) /\
   exists rep s',
     Simple.explore_urls (Stub.urlopen Stub.example_test)
       (Simple.test_urls "example.test") Stub.start = (Return rep, s') /\
     map Simple.url (Simple.all_tests rep) = Simple.test_urls "example.test" /\
     Simple.working_endpoints rep
     = List.filter
         (fun r => Simple.success r
                   && bool_decide (Simple.status_code r = Some 200))
         (Simple.all_tests rep)) /\
  (joined Stub.urljoin ("https://" +:+ "example.test")
     ["/"; "/products"; "/slow"]
     [ "https://example.test/";
       "https://example.test/products";
       "https://example.test/slow" ] /\
   exists s',
     Fixed.find_working_among (Stub.session_get Stub.example_test_response)
       Stub.urljoin ["/"; "/products"; "/slow"] "example.test" Stub.start
     = (Return
          (omap working_entry
             (answers (Stub.session_get Stub.example_test_response)
                [ "https://example.test/";
                  "https://example.test/products";
                  "https://example.test/slow" ]
                (world Stub.start))),
        s')).
Proof.
  split.
  - destruct (proj1 C3_working_endpoints_are_200_successes
                (Stub.urlopen Stub.example_test)
                (Simple.test_urls "example.test") Stub.start)
      as [Hpartial Htotal].
    split; [exact example_test_readable |].
    destruct (Htotal example_test_readable) as (rep & s' & Hrun).
    exists rep, s'. split; [exact Hrun | exact (Hpartial rep s' Hrun)].
  - assert (Hjoined : joined Stub.urljoin ("https://" +:+ "example.test")
                        ["/"; "/products"; "/slow"]
                        [ "https://example.test/";
                          "https://example.test/products";
                          "https://example.test/slow" ]).
    { unfold joined.
      repeat (constructor; [vm_compute; reflexivity |]). constructor. }
    split; [exact Hjoined |].
    exact (proj2 C3_working_endpoints_are_200_successes
             (Stub.session_get Stub.example_test_response) Stub.urljoin
             _ _ "example.test" Stub.start Hjoined).
Defined.

Lemma C4_witness :
  (Simple.successful (Simple.summary Stub.none_working) = 0 /\
   forall k,
     msg_found k
     ∉ Simple.generate_recommendations Stub.none_working Stub.one_failure) /\
  (Simple.successful (Simple.summary Stub.two_working) <> 0 /\
   msg_found 2
   ∈ Simple.generate_recommendations Stub.two_working Stub.one_failure).
Proof.
  split.
  - split; [reflexivity |].
    destruct (proj1 C4_exploration_rule_of_recommendations
                Stub.none_working Stub.one_failure) as [Hzero _].
    apply Hzero. reflexivity.
  - split; [discriminate |].
    destruct (proj1 C4_exploration_rule_of_recommendations
                Stub.two_working Stub.one_failure) as [_ Hsome].
    apply Hsome. discriminate.
Defined.

Lemma C7_witness :
  let urls := [ "http://example.test/products";
                "http://example.test/filter/all/page/1" ] in
  let fixed_urls := [ "http://example.test/products";
                      "http://example.test/slow";
                      "http://example.test/filter/all/page/1" ] in
  (error_bodies_readable (Stub.urlopen Stub.example_test) /\
   urls <> [] /\
   exists rep s',
     Simple.scrape_original_urls (Stub.urlopen Stub.example_test)
       Stub.percent_1f urls Stub.start = (Return rep, s') /\
     map Simple.original_url (Simple.all_results rep) = map Some urls) /\
  (only_request_exceptions (Stub.session_get Stub.example_test_response) /\
   exists rep s',
     Fixed.scrape_with_error_handling
       (Stub.session_get Stub.example_test_response) fixed_urls Stub.start
     = (Return rep, s') /\
     exists entries,
       Forall3 made_for fixed_urls
         (answers (Stub.session_get Stub.example_test_response)
            (map (str_replace "http://" "https://") fixed_urls)
            (world Stub.start)).*2
         entries /\
       Fixed.successful_scrapes rep
       = filter (fun e => Fixed.status_code e = Some 200) entries /\
       Fixed.failed_scrapes rep
       = filter (fun e => Fixed.status_code e <> Some 200) entries).
Proof.
  intros urls fixed_urls. split.
  - destruct (proj1 C7_results_carry_original_url
                (Stub.urlopen Stub.example_test)
                Stub.percent_1f urls Stub.start) as [Hpartial Htotal].
    split; [exact example_test_readable |].
    split; [discriminate |].
    destruct (Htotal example_test_readable) as (rep & s' & Hrun);
      [discriminate |].
    exists rep, s'. split; [exact Hrun | exact (Hpartial rep s' Hrun)].
  - destruct (proj2 C7_results_carry_original_url
                (Stub.session_get Stub.example_test_response)
                fixed_urls Stub.start) as [Hpartial Htotal].
    split; [exact example_test_response_only_requests |].
    destruct (Htotal example_test_response_only_requests)
      as (rep & s' & Hrun).
    exists rep, s'. split; [exact Hrun | exact (Hpartial rep s' Hrun)].
Defined.

Lemma C10_witness :
  exists r s',
    Simple.test_url (Stub.urlopen Stub.example_test)
      "https://unknown.invalid/" Stub.start = (Return r, s') /\
    (Simple.success r = false /\ is_Some (Simple.error r)) /\
    Simple.status_code r = None.
Proof.
  eexists _, _. split; [vm_compute; reflexivity |].
  destruct (C10_prober_dictionary_keys (Stub.urlopen Stub.example_test)
              "https://unknown.invalid/" Stub.start _ _
              ltac:(vm_compute; reflexivity)) as (_ & Hfail & Hcode).
  split.
  - apply Hfail. vm_compute. discriminate.
  - apply Hcode. vm_compute. reflexivity.
Defined.

(** * Further properties of the scripts *)

(** ** More on the scheme rewrite *)

Section Contains.
Local Open Scope nat_scope.
Local Abbreviation rewrite_scheme := (str_replace "http://" "https://").

Lemma str_contains_occurs p s : str_contains p s = true <-> occurs p s.
Proof.
  induction s as [|c s IH]; cbn [str_contains].
  - rewrite prefix_app. split.
    + intros [t Ht]. by exists "", t.
    + intros (a & b & Hab). destruct a; [| discriminate]. by exists b.
  - rewrite orb_true_iff, IH, prefix_app. split.
    + intros [[t Ht] | (a & b & ->)].
      * by exists "", t.
      * by exists (String c a), b.
    + intros (a & b & Hab). destruct a as [|d a].
      * left. by exists b.
      * right. injection Hab as -> ->. by exists a, b.
Qed.

Lemma str_contains_cons p c s :
  str_contains p (String c s) = String.prefix p (String c s) || str_contains p s.
Proof. reflexivity. Qed.

(** Nothing that starts inside the inserted [https://] matches. *)
Lemma str_contains_after_https t :
  str_contains "http://" ("https://" +:+ t) = str_contains "http://" t.
Proof.
  change ("https://" +:+ t) with
    (String "h" (String "t" (String "t" (String "p" (String "s"
       (String ":" (String "/" (String "/" t)))))))).
  rewrite !str_contains_cons. reflexivity.
Qed.

Lemma rewrite_scheme_no_http_len n s :
  String.length s <= n -> str_contains "http://" (rewrite_scheme s) = false.
Proof.
  revert s. induction n as [|n IH]; intros s Hlen.
  - destruct s; [reflexivity | simpl in Hlen; lia].
  - destruct s as [|c s]; [reflexivity |].
    destruct (String.prefix "http://" (String c s)) eqn:Hp.
    + apply prefix_app in Hp as [t Ht]. rewrite Ht.
      rewrite rewrite_scheme_match, str_contains_after_https.
      apply IH. rewrite Ht in Hlen.
      change (String.length ("http://" +:+ t)) with (7 + String.length t) in Hlen.
      lia.
    + rewrite rewrite_scheme_other by done.
      rewrite str_contains_cons, rewrite_keeps_mismatch by done.
      apply IH. simpl in Hlen. lia.
Qed.
End Contains.

(** X1: after [url.replace('http://', 'https://')] the text [http://]
    occurs nowhere in the URL, whatever the URL was. *)
Theorem X1_scheme_rewrite_leaves_no_http (u : string) :
  str_contains "http://" (str_replace "http://" "https://" u) = false.
Proof. by apply (rewrite_scheme_no_http_len (String.length u)). Qed.

(** X2: rewriting the scheme twice is the same as rewriting it once. *)
Theorem X2_scheme_rewrite_idempotent (u : string) :
  str_replace "http://" "https://" (str_replace "http://" "https://" u)
  = str_replace "http://" "https://" u.
Proof. apply rewrite_scheme_idempotent. Qed.

(** X3: when [http://] does not occur in [t], the URL [http://t] is
    rewritten to [https://t], and [https://t] and [t] itself are left as
    they are. *)
Theorem X3_scheme_rewrite_of_plain_urls (t : string) :
  str_contains "http://" t = false ->
  str_replace "http://" "https://" ("http://" +:+ t) = "https://" +:+ t /\
  str_replace "http://" "https://" ("https://" +:+ t) = "https://" +:+ t /\
  str_replace "http://" "https://" t = t.
Proof.
  intros Hno.
  assert (Hocc : ~ occurs "http://" t).
  { intros Hocc. apply str_contains_occurs in Hocc. congruence. }
  split; [by apply rewrite_scheme_plain_http |].
  split; [by apply rewrite_scheme_plain_https |].
  by apply rewrite_scheme_unchanged.
Qed.

Lemma X3_witness :
  str_contains "http://" "www.d2pbuyersguide.com/filter/all/page/1" = false /\
  str_replace "http://" "https://"
    ("http://" +:+ "www.d2pbuyersguide.com/filter/all/page/1")
  = "https://" +:+ "www.d2pbuyersguide.com/filter/all/page/1".
Proof.
  split; [reflexivity |].
  exact (proj1 (X3_scheme_rewrite_of_plain_urls
                  "www.d2pbuyersguide.com/filter/all/page/1" eq_refl)).
Defined.

(** ** More on simple_scraper.py *)

Section SimpleMore.
Context {W : Type}.
Variable urlopen : string -> W -> outcome Simple.response * W.
Variable percent_1f : Z -> Z -> string.
Implicit Types s : state W.

Local Abbreviation rewrite_scheme := (str_replace "http://" "https://").

Lemma str_take_length k t : (String.length (str_take k t) <= k)%nat.
Proof.
  unfold str_take. revert t. induction k as [|k IH]; intros [|c t]; simpl;
    try lia.
  specialize (IH t). lia.
Qed.

Lemma test_url_well_formed u s r s' :
  Simple.test_url urlopen u s = (Return r, s') -> well_formed r.
Proof.
  unfold Simple.test_url, try_except, bind, call, read, ret, raise, well_formed.
  destruct (urlopen u (world s)) as [[resp|e] w]; simpl.
  - destruct (Simple.body resp) as [content|msg]; intros [= <- <-]; simpl.
    + split; [| eauto 6].
      destruct (str_truthy content); [| simpl; lia].
      apply str_take_length.
    + split; [lia | eauto].
  - destruct e as [code reason [[c|m]|]| | |]; simpl; intros [= <- <-];
      simpl; (split; [| eauto]); try lia.
    pose proof (str_take_length 200 c). lia.
Qed.

Lemma set_original_url_well_formed r u :
  well_formed r -> well_formed (Simple.set_original_url r u).
Proof. done. Qed.

(** The rounds of the explorer: what they append, and what they do to
    the world. *)
Lemma explore_loop_trace urls acc s acc' s' :
  for_each urls (Simple.explore_step urlopen) acc s = (Return acc', s') ->
  exists new,
    acc'.1 = acc.1 ++ new /\ Forall well_formed new /\
    world s' = world_after urlopen urls (world s) /\ stdout s' = stdout s.
Proof.
  revert acc s. induction urls as [|u urls IH]; intros acc s; simpl.
  - intros [= <- <-]. exists []. by rewrite app_nil_r.
  - intros H. apply bind_inv_Return in H as (acc1 & s1 & Hstep & H).
    unfold Simple.explore_step in Hstep.
    apply bind_inv_Return in Hstep as (r & s0 & Hr & [= <- <-]).
    pose proof (test_url_state urlopen u s) as Hs. rewrite Hr in Hs.
    simpl in Hs. subst s0.
    apply test_url_well_formed in Hr.
    apply IH in H as (new & H1 & Hnew & Hw & Hout). simpl in *.
    exists (r :: new). rewrite H1, <- app_assoc. split; [done |].
    split; [by constructor |]. by rewrite Hw, Hout.
Qed.

Lemma scrape_loop_trace urls acc s acc' s' :
  for_each urls (Simple.scrape_step urlopen) acc s = (Return acc', s') ->
  exists new,
    acc'.1.1 = acc.1.1 ++ new /\ Forall well_formed new /\
    world s' = world_after urlopen (map rewrite_scheme urls) (world s) /\
    stdout s' = stdout s.
Proof.
  revert acc s. induction urls as [|u urls IH]; intros acc s; simpl.
  - intros [= <- <-]. exists []. by rewrite app_nil_r.
  - intros H. apply bind_inv_Return in H as (acc1 & s1 & Hstep & H).
    destruct acc as [[results successful] failed].
    unfold Simple.scrape_step in Hstep.
    apply bind_inv_Return in Hstep as (r & s0 & Hr & Hstep).
    pose proof (test_url_state urlopen (rewrite_scheme u) s) as Hs.
    rewrite Hr in Hs. simpl in Hs. subst s0.
    apply test_url_well_formed in Hr.
    apply (set_original_url_well_formed r u) in Hr.
    apply IH in H as (new & H1 & Hnew & Hw & Hout).
    exists (Simple.set_original_url r u :: new).
    destruct (Simple.is_working (Simple.set_original_url r u));
      injection Hstep as <- <-; simpl in *;
      rewrite H1, <- app_assoc; (split; [done |]);
      (split; [by constructor |]); by rewrite Hw, Hout.
Qed.
End SimpleMore.

(** X4: a dictionary returned by [test_url] carries the URL it was asked
    to probe; a success has [status_code], [content_length] and [headers]
    and no [error], a failure has [error] and neither [content_length] nor
    [headers]; [content_preview] has at most 300 characters; exactly one
    request was made and nothing was printed. *)
Theorem X4_prober_result_is_well_formed {W}
    (urlopen : string -> W -> outcome Simple.response * W)
    (u : string) (s : state W) r s' :
  Simple.test_url urlopen u s = (Return r, s') ->
  Simple.url r = u /\ well_formed r /\ s' = after_request urlopen u s.
Proof.
  intros Hrun. split; [by apply test_url_shape in Hrun as (? & _) |].
  split; [by apply test_url_well_formed in Hrun |].
  pose proof (test_url_state urlopen u s) as Hs. by rewrite Hrun in Hs.
Qed.

Lemma X4_witness :
  exists r s',
    Simple.test_url (Stub.urlopen Stub.example_test)
      "https://example.test/products" Stub.start = (Return r, s') /\
    Simple.url r = "https://example.test/products" /\ well_formed r /\
    s' = after_request (Stub.urlopen Stub.example_test)
           "https://example.test/products" Stub.start.
Proof.
  eexists _, _. split; [vm_compute; reflexivity |].
  exact (X4_prober_result_is_well_formed (Stub.urlopen Stub.example_test)
           "https://example.test/products" Stub.start _ _
           ltac:(vm_compute; reflexivity)).
Defined.

(** X5: in the report of the explorer the counts are consistent:
    [total_tested] is the number of candidate URLs, [successful] lies
    between 0 and [total_tested], [failed] is their difference, and
    [working_endpoints] is a sublist of [all_tests]. *)
Theorem X5_explorer_summary_is_consistent {W}
    (urlopen : string -> W -> outcome Simple.response * W)
    (urls : list string) (s : state W) rep s' :
  Simple.explore_urls urlopen urls s = (Return rep, s') ->
  Simple.total_tested (Simple.summary rep) = len urls /\
  0 <= Simple.successful (Simple.summary rep)
    <= Simple.total_tested (Simple.summary rep) /\
  Simple.successful (Simple.summary rep) + Simple.failed (Simple.summary rep)
  = Simple.total_tested (Simple.summary rep) /\
  Simple.working_endpoints rep `sublist_of` Simple.all_tests rep.
Proof.
  intros Hrun. apply explore_urls_inv in Hrun as (Hurls & Hwork & ->).
  simpl. rewrite Hwork. unfold len.
  pose proof (filter_length_le Simple.is_working (Simple.all_tests rep)).
  rewrite <- Hurls, length_map. repeat split; try lia.
  clear. induction (Simple.all_tests rep) as [|r l IH]; simpl; [done |].
  destruct (Simple.is_working r); [by apply sublist_skip | by apply sublist_cons].
Qed.

Lemma X5_witness :
  exists rep s',
    Simple.explore_urls (Stub.urlopen Stub.example_test)
      (Simple.test_urls "example.test") Stub.start = (Return rep, s') /\
    Simple.total_tested (Simple.summary rep)
    = len (Simple.test_urls "example.test").
Proof.
  eexists _, _. split; [vm_compute; reflexivity |].
  exact (proj1 (X5_explorer_summary_is_consistent
                  (Stub.urlopen Stub.example_test)
                  (Simple.test_urls "example.test") Stub.start _ _
                  ltac:(vm_compute; reflexivity))).
Defined.

(** X6: every result of the two reports is well formed; in particular a
    working endpoint and a successful retest have status 200 and carry
    [content_length] and [headers], the keys [main] reads from them. *)
Theorem X6_reported_results_are_well_formed {W}
    (urlopen : string -> W -> outcome Simple.response * W)
    (percent_1f : Z -> Z -> string) (urls : list string) (s : state W) :
  (forall rep s',
     Simple.explore_urls urlopen urls s = (Return rep, s') ->
     Forall well_formed (Simple.all_tests rep) /\
     Forall (fun r => Simple.status_code r = Some 200 /\
                      is_Some (Simple.content_length r) /\
                      is_Some (Simple.headers r))
       (Simple.working_endpoints rep)) /\
  (forall rep s',
     Simple.scrape_original_urls urlopen percent_1f urls s = (Return rep, s') ->
     Forall well_formed (Simple.all_results rep) /\
     Forall (fun r => Simple.status_code r = Some 200 /\
                      is_Some (Simple.content_length r) /\
                      is_Some (Simple.headers r))
       (Simple.successful_results rep)).
Proof.
  assert (Hfilter : forall l, Forall well_formed l ->
            Forall (fun r => Simple.status_code r = Some 200 /\
                             is_Some (Simple.content_length r) /\
                             is_Some (Simple.headers r))
              (List.filter Simple.is_working l)).
  { intros l Hl. induction Hl as [|r l Hr _ IH]; simpl; [done |].
    destruct (Simple.is_working r) eqn:Hw; [| done].
    constructor; [| done].
    apply is_working_spec in Hw as [Hs Hc].
    destruct Hr as [_ Hr]. rewrite Hs in Hr.
    by destruct Hr as (_ & ? & ? & _). }
  split; intros rep s' Hrun.
  - pose proof Hrun as Hinv. apply explore_urls_inv in Hinv as (_ & -> & _).
    unfold Simple.explore_urls in Hrun.
    apply bind_inv_Return in Hrun as (acc & s1 & Hloop & [= <- <-]).
    apply explore_loop_trace in Hloop as (new & -> & Hnew & _). simpl.
    split; [done | by apply Hfilter].
  - pose proof Hrun as Hinv.
    apply scrape_original_urls_inv in Hinv as (_ & _ & _ & -> & _).
    unfold Simple.scrape_original_urls in Hrun.
    apply bind_inv_Return in Hrun as (acc & s1 & Hloop & Hrun).
    apply scrape_loop_trace in Hloop as (new & Hacc & Hnew & _).
    destruct acc as [[results successful] failed]. simpl in Hacc. subst results.
    apply bind_inv_Return in Hrun as (rate & s2 & _ & [= <- <-]). simpl.
    split; [done | by apply Hfilter].
Qed.

Lemma X6_witness :
  exists rep s',
    Simple.explore_urls (Stub.urlopen Stub.example_test)
      (Simple.test_urls "example.test") Stub.start = (Return rep, s') /\
    Forall well_formed (Simple.all_tests rep).
Proof.
  eexists _, _. split; [vm_compute; reflexivity |].
  exact (proj1 (proj1 (X6_reported_results_are_well_formed
                         (Stub.urlopen Stub.example_test) Stub.percent_1f
                         (Simple.test_urls "example.test") Stub.start)
                  _ _ ltac:(vm_compute; reflexivity))).
Defined.

(** X7: a run of the explorer that returns has made one request for each
    candidate URL, in order, and a run of the retester one request for
    each rewritten URL; neither has printed anything. *)
Theorem X7_one_request_per_url {W}
    (urlopen : string -> W -> outcome Simple.response * W)
    (percent_1f : Z -> Z -> string) (urls : list string) (s : state W) :
  (forall rep s',
     Simple.explore_urls urlopen urls s = (Return rep, s') ->
     world s' = world_after urlopen urls (world s) /\ stdout s' = stdout s) /\
  (forall rep s',
     Simple.scrape_original_urls urlopen percent_1f urls s = (Return rep, s') ->
     world s'
     = world_after urlopen (map (str_replace "http://" "https://") urls)
         (world s) /\
     stdout s' = stdout s).
Proof.
  split; intros rep s' Hrun.
  - unfold Simple.explore_urls in Hrun.
    apply bind_inv_Return in Hrun as (acc & s1 & Hloop & [= <- <-]).
    by apply explore_loop_trace in Hloop as (new & _ & _ & ? & ?).
  - unfold Simple.scrape_original_urls in Hrun.
    apply bind_inv_Return in Hrun as (acc & s1 & Hloop & Hrun).
    apply scrape_loop_trace in Hloop as (new & _ & _ & Hw & Hout).
    destruct acc as [[results successful] failed].
    unfold Simple.format_success_rate in Hrun. case_bool_decide.
    + discriminate.
    + by injection Hrun as <- <-.
Qed.

Lemma X7_witness :
  exists rep s',
    Simple.scrape_original_urls (Stub.urlopen Stub.not_found) Stub.percent_1f
      ["http://example.test/a"; "http://example.test/b"] Stub.start
    = (Return rep, s') /\
    world s' = ["https://example.test/a"; "https://example.test/b"].
Proof.
  eexists _, _. split; [vm_compute; reflexivity |].
  exact (proj1 (proj2 (X7_one_request_per_url
                         (Stub.urlopen Stub.not_found) Stub.percent_1f
                         ["http://example.test/a"; "http://example.test/b"]
                         Stub.start)
                  _ _ ltac:(vm_compute; reflexivity))).
Defined.

(** X8: the retester splits [all_results] in two: [successful] holds the
    results with [success] true and status 200, [failed] all the others,
    both in input order; [total] is the number of input URLs and
    [successful + failed = total]. *)
Theorem X8_retest_partitions_results {W}
    (urlopen : string -> W -> outcome Simple.response * W)
    (percent_1f : Z -> Z -> string) (urls : list string) (s : state W) rep s' :
  Simple.scrape_original_urls urlopen percent_1f urls s = (Return rep, s') ->
  Simple.successful_results rep
  = List.filter Simple.is_working (Simple.all_results rep) /\
  Simple.failed_results rep
  = List.filter (fun r => negb (Simple.is_working r)) (Simple.all_results rep) /\
  Simple.total (Simple.retest_summary rep) = len urls /\
  Simple.n_successful (Simple.retest_summary rep)
  + Simple.n_failed (Simple.retest_summary rep)
  = Simple.total (Simple.retest_summary rep).
Proof.
  intros Hrun.
  apply scrape_original_urls_inv in Hrun as (_ & _ & Horig & Hok & Hbad & ->).
  simpl. rewrite Hok, Hbad. split; [done |]. split; [done |].
  unfold len.
  pose proof (filter_length Simple.is_working (Simple.all_results rep)).
  apply (f_equal length) in Horig. rewrite !length_map in Horig.
  split; lia.
Qed.

Lemma X8_witness :
  exists rep s',
    Simple.scrape_original_urls (Stub.urlopen Stub.example_test)
      Stub.percent_1f
      ["http://example.test/products"; "http://example.test/missing"]
      Stub.start = (Return rep, s') /\
    Simple.total (Simple.retest_summary rep)
    = len ["http://example.test/products"; "http://example.test/missing"].
Proof.
  eexists _, _. split; [vm_compute; reflexivity |].
  exact (proj1 (proj2 (proj2 (X8_retest_partitions_results
                  (Stub.urlopen Stub.example_test) Stub.percent_1f
                  ["http://example.test/products";
                   "http://example.test/missing"] Stub.start _ _
                  ltac:(vm_compute; reflexivity))))).
Defined.

(** X9: the URL recorded in a result of the retester is the rewritten
    input URL, and [http://] occurs in none of the recorded URLs. *)
Theorem X9_retest_records_rewritten_urls {W}
    (urlopen : string -> W -> outcome Simple.response * W)
    (percent_1f : Z -> Z -> string) (urls : list string) (s : state W) rep s' :
  Simple.scrape_original_urls urlopen percent_1f urls s = (Return rep, s') ->
  map Simple.url (Simple.all_results rep)
  = map (str_replace "http://" "https://") urls /\
  Forall (fun r => str_contains "http://" (Simple.url r) = false)
    (Simple.all_results rep).
Proof.
  intros Hrun.
  apply scrape_original_urls_inv in Hrun as (_ & Hurl & _).
  split; [done |].
  apply Forall_forall. intros r Hr.
  apply (list_elem_of_fmap_2 Simple.url) in Hr.
  change (Simple.url <$> Simple.all_results rep)
    with (map Simple.url (Simple.all_results rep)) in Hr.
  rewrite Hurl in Hr.
  change (map (str_replace "http://" "https://") urls)
    with (str_replace "http://" "https://" <$> urls) in Hr.
  apply list_elem_of_fmap in Hr as (u & -> & _).
  apply (rewrite_scheme_no_http_len (String.length u)). lia.
Qed.

Lemma X9_witness :
  exists rep s',
    Simple.scrape_original_urls (Stub.urlopen Stub.example_test)
      Stub.percent_1f
      ["http://example.test/products"; "http://example.test/missing"]
      Stub.start = (Return rep, s') /\
    map Simple.url (Simple.all_results rep)
    = map (str_replace "http://" "https://")
        ["http://example.test/products"; "http://example.test/missing"].
Proof.
  eexists _, _. split; [vm_compute; reflexivity |].
  exact (proj1 (X9_retest_records_rewritten_urls
                  (Stub.urlopen Stub.example_test) Stub.percent_1f
                  ["http://example.test/products";
                   "http://example.test/missing"] Stub.start _ _
                  ltac:(vm_compute; reflexivity))).
Defined.

(** ** More on the tallies *)

Section TalliesMore.
Context `{Countable K} {A : Type}.
Variable label : A -> K.
Implicit Types (m : gmap K Z) (k : K) (l : list A).

(** The order in which two occurrences are counted does not matter. *)
Lemma tally_comm m k1 k2 : tally k1 (tally k2 m) = tally k2 (tally k1 m).
Proof.
  destruct (decide (k1 = k2)) as [->|Hne]; [done |].
  unfold tally. rewrite !lookup_insert_ne by done.
  by apply insert_insert_ne.
Qed.

Lemma tally_all_perm l l' :
  l ≡ₚ l' -> forall m, tally_all label l m = tally_all label l' m.
Proof.
  unfold tally_all.
  induction 1 as [|a l l' _ IH|a b l|l1 l2 l3 _ IH1 _ IH2]; intros m; simpl.
  - done.
  - apply IH.
  - by rewrite tally_comm.
  - by rewrite IH1.
Qed.

Lemma tally_all_app l1 l2 m :
  tally_all label (l1 ++ l2) m = tally_all label l2 (tally_all label l1 m).
Proof. unfold tally_all. apply foldl_app. Qed.

(** Counts are at least 1: a label is a key only if it was counted. *)
Lemma tally_all_positive l m :
  (forall j n, m !! j = Some n -> 1 <= n) ->
  forall j n, tally_all label l m !! j = Some n -> 1 <= n.
Proof.
  unfold tally_all. revert m.
  induction l as [|a l IH]; intros m Hm; simpl; [done |].
  apply IH. intros j n. unfold tally.
  destruct (decide (label a = j)) as [<-|Hne].
  - rewrite lookup_insert_eq. intros [= <-].
    destruct (m !! label a) as [v|] eqn:Hv; simpl.
    + apply Hm in Hv. lia.
    + lia.
  - rewrite lookup_insert_ne by done. apply Hm.
Qed.

Lemma tally_all_lookup_exact l k :
  tally_all label l ∅ !! k
  = let n := len (filter (fun a => label a = k) l) in
    if bool_decide (n = 0) then None else Some n.
Proof.
  pose proof (tally_all_lookup label l ∅ k) as Hcount.
  rewrite lookup_empty in Hcount. cbn zeta.
  set (cnt := len (filter (fun a => label a = k) l)) in *.
  assert (0 <= cnt) by (unfold cnt, len; lia).
  destruct (tally_all label l ∅ !! k) as [n|] eqn:Hk; simpl in Hcount.
  - apply tally_all_positive in Hk; [| intros j v; by rewrite lookup_empty].
    case_bool_decide; [lia | f_equal; lia].
  - case_bool_decide; [done | lia].
Qed.

Lemma count_positive_iff l k :
  0 < len (filter (fun a => label a = k) l) <-> exists a, a ∈ l /\ label a = k.
Proof.
  unfold len. split.
  - intros Hpos. destruct (filter _ l) as [|a l'] eqn:Hf; [simpl in Hpos; lia |].
    assert (Ha : a ∈ filter (fun a => label a = k) l) by (rewrite Hf; by left).
    apply list_elem_of_filter in Ha as [? ?]. eauto.
  - intros (a & Ha & Hk).
    assert (Hin : a ∈ filter (fun a => label a = k) l)
      by (by apply list_elem_of_filter).
    destruct (filter _ l); [by apply elem_of_nil in Hin | simpl; lia].
Qed.
End TalliesMore.

(** X10: in the analysis of the failures a label is a key of a tally
    exactly when some result carries it, and the count under a key is at
    least 1 and is the number of results that carry the label. *)
Theorem X10_tally_keys_are_the_labels_seen
    (failed_results : list Simple.result) (k : string) (c : key) :
  let ea := Simple.analyze_errors failed_results in
  (is_Some (Simple.error_types ea !! k) <->
   exists r, r ∈ failed_results /\ default "Unknown" (Simple.error r) = k) /\
  (is_Some (Simple.status_codes ea !! c) <->
   exists r, r ∈ failed_results /\
     from_option KInt (KStr "Unknown") (Simple.status_code r) = c) /\
  (forall n, Simple.error_types ea !! k = Some n ->
     1 <= n /\
     n = len (filter (fun r => default "Unknown" (Simple.error r) = k)
                failed_results)) /\
  (forall n, Simple.status_codes ea !! c = Some n ->
     1 <= n /\
     n = len (filter (fun r => from_option KInt (KStr "Unknown")
                                 (Simple.status_code r) = c)
                failed_results)).
Proof.
  intros ea. subst ea. unfold Simple.analyze_errors. simpl.
  rewrite foldl_two_tallies. simpl.
  rewrite !tally_all_lookup_exact. simpl.
  split; [split |].
  - case_bool_decide as Hn; intros Hsome; [by destruct Hsome |].
    apply (count_positive_iff (fun r => default "Unknown" (Simple.error r))).
    unfold len in *. lia.
  - intros Hex.
    apply (count_positive_iff (fun r => default "Unknown" (Simple.error r)))
      in Hex.
    case_bool_decide; [lia | done].
  - split; [split |].
    + case_bool_decide as Hn; intros Hsome; [by destruct Hsome |].
      apply (count_positive_iff
               (fun r => from_option KInt (KStr "Unknown")
                           (Simple.status_code r))).
      unfold len in *. lia.
    + intros Hex.
      apply (count_positive_iff
               (fun r => from_option KInt (KStr "Unknown")
                           (Simple.status_code r))) in Hex.
      case_bool_decide; [lia | done].
    + split; intros n; (case_bool_decide; [done |]); intros [= <-];
        (split; [unfold len in *; lia | done]).
Qed.

(** X11: the analysis of the failures does not depend on their order, in
    either script. *)
Theorem X11_analysis_ignores_order :
  (forall l l' : list Simple.result,
     l ≡ₚ l' -> Simple.analyze_errors l = Simple.analyze_errors l') /\
  (forall l l' : list Fixed.entry,
     l ≡ₚ l' -> Fixed._analyze_errors l = Fixed._analyze_errors l').
Proof.
  split; intros l l' Hperm;
    unfold Simple.analyze_errors, Fixed._analyze_errors;
    rewrite !foldl_two_tallies; simpl;
    rewrite (tally_all_perm _ l l' Hperm ∅);
    rewrite (tally_all_perm _ l l' Hperm ∅);
    unfold len; by rewrite (Permutation_length Hperm).
Qed.

Lemma X11_witness :
  [Stub.page_1_missing; Stub.page_2_timeout]
  ≡ₚ [Stub.page_2_timeout; Stub.page_1_missing] /\
  Simple.analyze_errors [Stub.page_1_missing; Stub.page_2_timeout]
  = Simple.analyze_errors [Stub.page_2_timeout; Stub.page_1_missing].
Proof.
  split; [apply Permutation_swap |].
  exact (proj1 X11_analysis_ignores_order _ _ (Permutation_swap _ _ [])).
Defined.

(** X12: the analysis of two lists put together adds up their analyses:
    the totals add, and so do the counts under every label. *)
Theorem X12_analysis_of_concatenation
    (l1 l2 : list Simple.result) (k : string) (c : key) :
  Simple.total_failures (Simple.analyze_errors (l1 ++ l2))
  = Simple.total_failures (Simple.analyze_errors l1)
    + Simple.total_failures (Simple.analyze_errors l2) /\
  default 0 (Simple.error_types (Simple.analyze_errors (l1 ++ l2)) !! k)
  = default 0 (Simple.error_types (Simple.analyze_errors l1) !! k)
    + default 0 (Simple.error_types (Simple.analyze_errors l2) !! k) /\
  default 0 (Simple.status_codes (Simple.analyze_errors (l1 ++ l2)) !! c)
  = default 0 (Simple.status_codes (Simple.analyze_errors l1) !! c)
    + default 0 (Simple.status_codes (Simple.analyze_errors l2) !! c).
Proof.
  unfold Simple.analyze_errors. simpl. rewrite !foldl_two_tallies. simpl.
  rewrite !tally_all_lookup, !lookup_empty. simpl.
  rewrite !filter_app. unfold len. rewrite !length_app. lia.
Qed.

(** ** More on the recommendations and on [main] of simple_scraper.py *)

Section SimpleRules.
Implicit Types (ex : Simple.ExplorationReport) (rt : Simple.RetestReport).

(** A status code is counted exactly when a failure carries it. *)
Lemma status_counted_iff (l : list Simple.result) (code : Z) :
  0 < default 0 (Simple.status_codes (Simple.analyze_errors l) !! KInt code)
  <-> exists r, r ∈ l /\ Simple.status_code r = Some code.
Proof.
  unfold Simple.analyze_errors. simpl. rewrite foldl_two_tallies. simpl.
  rewrite tally_all_lookup, lookup_empty. simpl.
  rewrite Z.add_0_l.
  rewrite (count_positive_iff
             (fun r => from_option KInt (KStr "Unknown") (Simple.status_code r))).
  split; intros (r & Hr & Hc); exists r; (split; [done |]).
  - destruct (Simple.status_code r); simpl in Hc; congruence.
  - by rewrite Hc.
Qed.

(** The messages of the retest rules are not messages of the exploration
    rule. *)
Lemma retest_message_not_exploration m n :
  m ∈ msg_retest -> m ∉ exploration_part n.
Proof.
  intros Hm. unfold exploration_part. case_bool_decide.
  - intros Hin. apply msg_no_endpoints_not_retest in Hin as [Hin _]. done.
  - assert (Hf : String.prefix "✅ Found " m = false).
    { pose proof msg_retest_not_found as Hall.
      rewrite Forall_forall in Hall. by apply Hall. }
    rewrite !not_elem_of_cons. split; [| split; [| apply not_elem_of_nil]].
    + intros ->. by rewrite msg_found_prefix in Hf.
    + unfold msg_retest in Hm. rewrite !elem_of_cons, elem_of_nil in Hm.
      unfold msg_use_working.
      destruct Hm as [->|[->|[->|[->|[->|[]]]]]]; discriminate.
Qed.

(** The list, rule by rule. *)
Lemma generate_recommendations_eq ex rt :
  Simple.generate_recommendations ex rt
  = exploration_part (Simple.successful (Simple.summary ex)) ++
    (if bool_decide (Simple.n_successful (Simple.retest_summary rt) = 0)
     then [ "❌ All original pagination URLs failed";
            "🔍 The pagination structure has likely changed";
            "📋 Try using the working endpoints found during exploration" ]
     else []) ++
    (if bool_decide (0 < Simple.n_failed (Simple.retest_summary rt))
     then (if bool_decide
                (0 < default 0
                       (Simple.status_codes
                          (Simple.analyze_errors (Simple.failed_results rt))
                        !! KInt 404))
           then [ "🔧 404 errors confirm URL structure has changed" ] else []) ++
          (if bool_decide
                (0 < default 0
                       (Simple.status_codes
                          (Simple.analyze_errors (Simple.failed_results rt))
                        !! KInt 403))
           then [ "🚫 403 errors suggest access restrictions" ] else [])
     else []).
Proof.
  unfold Simple.generate_recommendations, exploration_part, msg_no_endpoints,
    msg_found, msg_use_working.
  repeat case_bool_decide; reflexivity.
Qed.
End SimpleRules.

(** X13: the rules of [generate_recommendations] on the retest.  The
    "pagination URLs failed" message is in the list exactly when the retest
    counts no success; the 404 message exactly when the retest counts a
    failure and some failed result has status 404; the 403 message
    likewise with status 403. *)
Theorem X13_retest_rules_of_recommendations
    (ex : Simple.ExplorationReport) (rt : Simple.RetestReport) :
  let recs := Simple.generate_recommendations ex rt in
  ("❌ All original pagination URLs failed" ∈ recs <->
   Simple.n_successful (Simple.retest_summary rt) = 0) /\
  ("🔧 404 errors confirm URL structure has changed" ∈ recs <->
   0 < Simple.n_failed (Simple.retest_summary rt) /\
   exists r, r ∈ Simple.failed_results rt /\ Simple.status_code r = Some 404) /\
  ("🚫 403 errors suggest access restrictions" ∈ recs <->
   0 < Simple.n_failed (Simple.retest_summary rt) /\
   exists r, r ∈ Simple.failed_results rt /\ Simple.status_code r = Some 403).
Proof.
  intros recs. subst recs. rewrite generate_recommendations_eq.
  set (E := exploration_part _).
  assert (HE : forall m, m ∈ msg_retest -> m ∉ E)
    by (intros m Hm; by apply retest_message_not_exploration).
  rewrite <- !status_counted_iff.
  set (c404 := default 0 (_ !! KInt 404)).
  set (c403 := default 0 (_ !! KInt 403)).
  split; [| split]; (split; [intros Hin | intros Hcond]).
  - apply elem_of_app in Hin as [Hin | Hin];
      [exfalso; revert Hin; apply HE; unfold msg_retest; in_list |].
    revert Hin. repeat case_bool_decide; try done;
      rewrite ?elem_of_app, ?elem_of_cons, ?elem_of_nil; intros Hin;
      repeat (destruct Hin as [Hin | Hin]); try discriminate Hin; done.
  - apply elem_of_app. right. rewrite bool_decide_eq_true_2 by done.
    apply elem_of_app. left. in_list.
  - apply elem_of_app in Hin as [Hin | Hin];
      [exfalso; revert Hin; apply HE; unfold msg_retest; in_list |].
    revert Hin. repeat case_bool_decide; try done;
      rewrite ?elem_of_app, ?elem_of_cons, ?elem_of_nil; intros Hin;
      repeat (destruct Hin as [Hin | Hin]); try discriminate Hin; done.
  - destruct Hcond as [Hf Hc]. apply elem_of_app. right.
    apply elem_of_app. right.
    rewrite (bool_decide_eq_true_2 _ Hf), (bool_decide_eq_true_2 _ Hc).
    apply elem_of_app. left. in_list.
  - apply elem_of_app in Hin as [Hin | Hin];
      [exfalso; revert Hin; apply HE; unfold msg_retest; in_list |].
    revert Hin. repeat case_bool_decide; try done;
      rewrite ?elem_of_app, ?elem_of_cons, ?elem_of_nil; intros Hin;
      repeat (destruct Hin as [Hin | Hin]); try discriminate Hin; done.
  - destruct Hcond as [Hf Hc]. apply elem_of_app. right.
    apply elem_of_app. right.
    rewrite (bool_decide_eq_true_2 _ Hf), (bool_decide_eq_true_2 _ Hc).
    apply elem_of_app. right. in_list.
Qed.

(** X14: the recommendations of simple_scraper.py are never empty: they
    hold between 2 and 8 messages, and the first ones are those of the
    exploration rule. *)
Theorem X14_recommendations_are_never_empty
    (ex : Simple.ExplorationReport) (rt : Simple.RetestReport) :
  let recs := Simple.generate_recommendations ex rt in
  (2 <= length recs <= 8)%nat /\
  exists tail,
    recs = exploration_part (Simple.successful (Simple.summary ex)) ++ tail.
Proof.
  intros recs. subst recs. split.
  - rewrite generate_recommendations_eq. unfold exploration_part.
    repeat case_bool_decide; simpl; lia.
  - destruct (generate_recommendations_split ex rt) as (tail & -> & _). eauto.
Qed.

Section SimpleMainFacts.
Context {W : Type}.
Variable urlopen : string -> W -> outcome Simple.response * W.
Variable percent_1f : Z -> Z -> string.
Variable makedirs : string -> W -> outcome unit * W.
Variable dump_json : string -> Simple.DetailedResults -> W -> outcome unit * W.
Implicit Types s : state W.

Lemma explore_urls_effect urls s rep s' :
  Simple.explore_urls urlopen urls s = (Return rep, s') ->
  world s' = world_after urlopen urls (world s) /\ stdout s' = stdout s.
Proof.
  intros Hrun. unfold Simple.explore_urls in Hrun.
  apply bind_inv_Return in Hrun as (acc & s1 & Hloop & [= <- <-]).
  by apply explore_loop_trace in Hloop as (new & _ & _ & ? & ?).
Qed.

Lemma scrape_original_urls_effect urls s rep s' :
  Simple.scrape_original_urls urlopen percent_1f urls s = (Return rep, s') ->
  world s'
  = world_after urlopen (map (str_replace "http://" "https://") urls)
      (world s) /\
  stdout s' = stdout s.
Proof.
  intros Hrun. unfold Simple.scrape_original_urls in Hrun.
  apply bind_inv_Return in Hrun as (acc & s1 & Hloop & Hrun).
  apply scrape_loop_trace in Hloop as (new & _ & _ & Hw & Hout).
  destruct acc as [[results successful] failed].
  unfold Simple.format_success_rate in Hrun. case_bool_decide.
  - discriminate.
  - by injection Hrun as <- <-.
Qed.

Lemma save_results_returns doc s w1 :
  makedirs "scraping_output" (world s) = (Return tt, w1) ->
  exists s' lines,
    Simple.save_results makedirs dump_json doc s = (Return tt, s') /\
    world s'
    = (dump_json "scraping_output/detailed_analysis.json" doc w1).2 /\
    stdout s' = stdout s ++ lines ++ conclusion.
Proof.
  intros Hdir.
  destruct (dump_json "scraping_output/detailed_analysis.json" doc w1)
    as [[[]|e] w2] eqn:Hdump.
  - eexists _, _.
    rewrite (simple_save_results_saved makedirs dump_json doc s w1 w2 Hdir Hdump).
    split; [reflexivity |]. split; reflexivity.
  - eexists _, _.
    rewrite (simple_save_results_caught makedirs dump_json doc s w1 e w2
               Hdir Hdump).
    split; [reflexivity |]. split; reflexivity.
Qed.
End SimpleMainFacts.

(** X15: once the output directory exists, the persistence step of
    [Simple.main] cannot fail: whatever the write does, it returns, leaves
    what was printed before in place, and ends with the conclusion. *)
Theorem X15_persistence_returns_after_makedirs {W}
    (makedirs : string -> W -> outcome unit * W)
    (dump_json : string -> Simple.DetailedResults -> W -> outcome unit * W)
    (doc : Simple.DetailedResults) (s : state W) w1 :
  makedirs "scraping_output" (world s) = (Return tt, w1) ->
  exists s' lines,
    Simple.save_results makedirs dump_json doc s = (Return tt, s') /\
    world s'
    = (dump_json "scraping_output/detailed_analysis.json" doc w1).2 /\
    stdout s' = stdout s ++ lines ++ conclusion.
Proof. apply save_results_returns. Qed.

Lemma X15_witness :
  exists s' lines,
    Simple.save_results Stub.makedirs Stub.dump_denied Stub.sample_document
      Stub.start = (Return tt, s') /\
    world s'
    = (Stub.dump_denied "scraping_output/detailed_analysis.json"
         Stub.sample_document []).2 /\
    stdout s' = stdout Stub.start ++ lines ++ conclusion.
Proof.
  exact (X15_persistence_returns_after_makedirs
           Stub.makedirs Stub.dump_denied Stub.sample_document Stub.start []
           eq_refl).
Defined.

(** X16: [Simple.main] returns whenever the bodies of error responses
    can be read, the clock answers and the output directory can be made:
    no outcome of a probe and no failure of the write stops it, and the
    conclusion is the last thing printed. *)
Theorem X16_main_returns {W}
    (urlopen : string -> W -> outcome Simple.response * W)
    (percent_1f : Z -> Z -> string)
    (strftime : W -> outcome string * W)
    (makedirs : string -> W -> outcome unit * W)
    (dump_json : string -> Simple.DetailedResults -> W -> outcome unit * W)
    (s : state W) :
  error_bodies_readable urlopen ->
  (forall w, exists t w', strftime w = (Return t, w')) ->
  (forall w, exists w', makedirs "scraping_output" w = (Return tt, w')) ->
  exists s' lines,
    Simple.main urlopen percent_1f strftime makedirs dump_json s
    = (Return tt, s') /\
    stdout s' = stdout s ++ lines ++ conclusion.
Proof.
  intros Hread Hclock Hdir. unfold Simple.main, Simple.explore_site.
  destruct (explore_urls_returns urlopen
              (Simple.test_urls "www.d2pbuyersguide.com") s Hread)
    as (ex & s1 & Hex).
  rewrite (bind_Return _ _ _ _ _ Hex).
  destruct (scrape_original_urls_returns urlopen percent_1f
              Simple.original_urls s1 Hread) as (rt & s2 & Hrt);
    [discriminate |].
  rewrite (bind_Return _ _ _ _ _ Hrt).
  destruct (Hclock (world s2)) as (t & w3 & Ht).
  assert (Hcall : call strftime s2
                  = (Return t, {| world := w3; stdout := stdout s2 |})).
  { unfold call. by rewrite Ht. }
  rewrite (bind_Return _ _ _ _ _ Hcall).
  destruct (Hdir w3) as (w4 & Hmk).
  destruct (save_results_returns makedirs dump_json
              {| Simple.exploration_results := ex;
                 Simple.scraping_results := rt;
                 Simple.recommendations :=
                   Simple.generate_recommendations ex rt;
                 Simple.timestamp := t |}
              {| world := w3; stdout := stdout s2 |} w4 Hmk)
    as (s' & lines & Hsave & _ & Hout).
  exists s', lines. split; [exact Hsave |].
  rewrite Hout. simpl.
  apply scrape_original_urls_effect in Hrt as [_ ->].
  by apply explore_urls_effect in Hex as [_ ->].
Qed.

Lemma X16_witness :
  exists s' lines,
    Simple.main (Stub.urlopen Stub.example_test) Stub.percent_1f
      Stub.strftime Stub.makedirs Stub.dump_denied Stub.start
    = (Return tt, s') /\
    stdout s' = stdout Stub.start ++ lines ++ conclusion.
Proof.
  apply (X16_main_returns (Stub.urlopen Stub.example_test) Stub.percent_1f
           Stub.strftime Stub.makedirs Stub.dump_denied Stub.start).
  - exact example_test_readable.
  - intros w. eexists _, _. reflexivity.
  - intros w. eexists. reflexivity.
Defined.

(** ** More on fixed_scraper.py *)

Section FixedMore.
Context {W : Type}.
Variable session_get : string -> W -> outcome Fixed.response * W.
Variable netloc : string -> outcome string.
Variable urljoin : string -> string -> outcome string.
Implicit Types s : state W.

Local Abbreviation rewrite_scheme := (str_replace "http://" "https://").

Lemma preview_length k response :
  (14 <= k)%nat -> (String.length (Fixed.preview k response) <= k)%nat.
Proof.
  intros Hk. unfold Fixed.preview. destruct (str_truthy _).
  - apply str_take_length.
  - simpl. lia.
Qed.

Lemma variation_step_run base_domain protocol results s :
  Fixed.variation_step session_get base_domain protocol results s
  = (Return (<[protocol +:+ "://" +:+ base_domain
               := variation_of
                    (session_get (protocol +:+ "://" +:+ base_domain)
                       (world s)).1]> results),
     after_request session_get (protocol +:+ "://" +:+ base_domain) s).
Proof.
  unfold Fixed.variation_step, try_except, bind, call, ret, after_request.
  by destruct (session_get _ (world s)) as [[resp|e] w].
Qed.

(** The explorer raises nothing but what [urlparse] and [urljoin]
    raise. *)
Lemma test_url_variations_raises_inv base_url e s s' :
  Fixed.test_url_variations session_get netloc base_url s = (Raise e, s') ->
  netloc base_url = Raise e.
Proof.
  destruct (netloc base_url) as [base_domain | e'] eqn:Hnetloc.
  - destruct (test_url_variations_returns session_get netloc base_url
                base_domain s Hnetloc) as (results & s1 & ->).
    discriminate.
  - rewrite (test_url_variations_raises session_get netloc base_url e' s
               Hnetloc).
    by intros [= <- _].
Qed.

Lemma endpoint_step_raises_inv base_url endpoint working e s s' :
  Fixed.endpoint_step session_get urljoin base_url endpoint working s
  = (Raise e, s') ->
  urljoin base_url endpoint = Raise e.
Proof.
  destruct (urljoin base_url endpoint) as [test_url | e'] eqn:Hjoin.
  - destruct (endpoint_step_returns session_get urljoin base_url endpoint
                test_url working s Hjoin) as (new & s1 & -> & _).
    discriminate.
  - rewrite (endpoint_step_raises session_get urljoin base_url endpoint
               working e' s Hjoin).
    by intros [= <- _].
Qed.

Lemma find_working_loop_raises_inv base_url endpoints working e s s' :
  for_each endpoints (Fixed.endpoint_step session_get urljoin base_url)
    working s = (Raise e, s') ->
  exists endpoint,
    endpoint ∈ endpoints /\ urljoin base_url endpoint = Raise e.
Proof.
  revert working s.
  induction endpoints as [|endpoint endpoints IH]; intros working s; simpl.
  - discriminate.
  - intros H. apply bind_inv_Raise in H as [H | (working1 & s1 & _ & H)].
    + apply endpoint_step_raises_inv in H.
      exists endpoint. split; [by left | done].
    + apply IH in H as (endpoint' & Hin & H).
      exists endpoint'. split; [by right | done].
Qed.

Lemma answers_length {R} (request : string -> W -> outcome R * W) urls w :
  length (answers request urls w) = length urls.
Proof.
  revert w. induction urls as [|u urls IH]; intros w; simpl; [done |].
  by rewrite IH.
Qed.

Lemma omap_length_le {A B} (f : A -> option B) (l : list A) :
  (length (omap f l) <= length l)%nat.
Proof.
  induction l as [|a l IH]; cbn; [done |].
  destruct (f a); cbn; lia.
Qed.

Lemma working_entries_shape (l : list (string * outcome Fixed.response)) :
  Forall (fun e => Fixed.status_code e = Some 200 /\ Fixed.error e = None /\
                   is_Some (Fixed.content_length e) /\
                   is_Some (Fixed.content_preview e))
    (omap working_entry l).
Proof.
  induction l as [|[u o] l IH]; simpl; [done |].
  unfold working_entry at 1. simpl.
  destruct o as [resp|e]; [| done].
  case_bool_decide; [| done].
  constructor; [| done]. simpl. eauto.
Qed.

(** One round of the retester. *)
Lemma fixed_scrape_step_shape u acc s acc' s' :
  Fixed.scrape_step session_get u acc s = (Return acc', s') ->
  (exists e, acc' = (acc.1 ++ [e], acc.2) /\ successful_entry e) \/
  (exists e, acc' = (acc.1, acc.2 ++ [e]) /\ failed_entry e).
Proof.
  unfold Fixed.scrape_step, try_except, bind, call, ret, raise,
    successful_entry, failed_entry.
  destruct (session_get _ (world s)) as [[resp|e] w]; simpl.
  - case_bool_decide as Hcode; intros [= <- <-]; [left | right];
      eexists; (split; [reflexivity |]); simpl.
    + rewrite Hcode. split; [done |]. split; [eauto |]. split; [done |].
      eexists. split; [done |]. apply preview_length. lia.
    + split; [congruence |]. eauto.
  - destruct e; intros [= <- <-]. right. eexists. split; [reflexivity |].
    simpl. split; [done |]. eauto.
Qed.

Lemma fixed_scrape_loop_shape urls acc s acc' s' :
  for_each urls (Fixed.scrape_step session_get) acc s = (Return acc', s') ->
  exists ok bad,
    acc' = (acc.1 ++ ok, acc.2 ++ bad) /\
    Forall successful_entry ok /\ Forall failed_entry bad.
Proof.
  revert acc s. induction urls as [|u urls IH]; intros acc s; simpl.
  - intros [= <- <-]. exists [], []. rewrite !app_nil_r. by destruct acc.
  - intros H. apply bind_inv_Return in H as (acc1 & s1 & Hstep & H).
    apply IH in H as (ok & bad & -> & Hok & Hbad).
    apply fixed_scrape_step_shape in Hstep
      as [(e & -> & He) | (e & -> & He)]; simpl.
    + exists (e :: ok), bad. rewrite <- app_assoc.
      split; [done |]. split; [by constructor | done].
    + exists ok, (e :: bad). rewrite <- app_assoc.
      split; [done |]. split; [done | by constructor].
Qed.

(** A round raises only what the network raised, and never a
    [RequestException]. *)
Lemma fixed_scrape_step_raises u acc s e s' :
  Fixed.scrape_step session_get u acc s = (Raise e, s') ->
  (session_get (rewrite_scheme u) (world s)).1 = Raise e /\
  forall msg, e <> RequestException msg.
Proof.
  unfold Fixed.scrape_step, try_except, bind, call, ret, raise.
  destruct (session_get _ (world s)) as [[resp|e'] w]; simpl.
  - case_bool_decide; discriminate.
  - destruct e'; intros [= <- <-]; done.
Qed.

Lemma fixed_scrape_loop_raises urls acc s e s' :
  for_each urls (Fixed.scrape_step session_get) acc s = (Raise e, s') ->
  (exists u w, u ∈ urls /\ (session_get (rewrite_scheme u) w).1 = Raise e) /\
  forall msg, e <> RequestException msg.
Proof.
  revert acc s. induction urls as [|u urls IH]; intros acc s; simpl.
  - discriminate.
  - intros H. apply bind_inv_Raise in H as [H | (acc1 & s1 & _ & H)].
    + apply fixed_scrape_step_raises in H as [H ?].
      split; [| done]. exists u, (world s). split; [by left | done].
    + apply IH in H as [(u' & w & Hin & H) ?].
      split; [| done]. exists u', w. split; [by right | done].
Qed.

(** A status code is counted exactly when a failed scrape carries it. *)
Lemma fixed_status_counted_iff (l : list Fixed.entry) (code : Z) :
  0 < default 0 (Fixed.status_codes (Fixed._analyze_errors l) !! KInt code)
  <-> exists e, e ∈ l /\ Fixed.status_code e = Some code.
Proof.
  unfold Fixed._analyze_errors. simpl. rewrite foldl_two_tallies. simpl.
  rewrite tally_all_lookup, lookup_empty. simpl.
  rewrite Z.add_0_l.
  rewrite (count_positive_iff
             (fun r => from_option KInt (KStr "Unknown") (Fixed.status_code r))).
  split; intros (r & Hr & Hc); exists r; (split; [done |]).
  - destruct (Fixed.status_code r); simpl in Hc; congruence.
  - by rewrite Hc.
Qed.

(** The list, rule by rule. *)
Lemma fixed_recommendations_eq results :
  Fixed._generate_recommendations results
  = (if Fixed.successful_scrapes results is [] then fixed_msg_no_success
     else []) ++
    (if bool_decide
          (0 < default 0
                 (Fixed.status_codes (Fixed.error_summary results) !! KInt 404))
     then [ "🔧 404 errors suggest URL structure has changed";
            "📋 Consider using a sitemap or site exploration tool" ]
     else []) ++
    (if bool_decide
          (0 < default 0
                 (Fixed.status_codes (Fixed.error_summary results) !! KInt 403))
     then [ "🚫 403 errors suggest access restrictions";
            "🔑 Check if authentication is required" ]
     else []).
Proof.
  unfold Fixed._generate_recommendations, fixed_msg_no_success.
  destruct (Fixed.successful_scrapes results);
    repeat case_bool_decide; reflexivity.
Qed.
End FixedMore.

(** X17: [test_url_variations] raises exactly when [urlparse] raises on
    [base_url], with the exception of [urlparse] and before any request.
    Otherwise it returns, whatever the network does: it makes two
    requests, to the https and then the http URL of the netloc of
    [base_url], and returns a dictionary with exactly these two URLs as
    keys, each with the status, length and preview of the answer or with
    the text of the exception. *)
Theorem X17_variations_returns_two_entries_unless_urlparse_raises {W}
    (session_get : string -> W -> outcome Fixed.response * W)
    (netloc : string -> outcome string) (base_url : string) (s : state W) :
  match netloc base_url with
  | Return base_domain =>
      let https_url := "https://" +:+ base_domain in
      let http_url := "http://" +:+ base_domain in
      let first := session_get https_url (world s) in
      let second := session_get http_url first.2 in
      exists results,
        Fixed.test_url_variations session_get netloc base_url s
        = (Return results, {| world := second.2; stdout := stdout s |}) /\
        results !! https_url = Some (variation_of first.1) /\
        results !! http_url = Some (variation_of second.1) /\
        size results = 2%nat
  | Raise e =>
      Fixed.test_url_variations session_get netloc base_url s = (Raise e, s)
  end.
Proof.
  destruct (netloc base_url) as [base_domain | e] eqn:Hnetloc.
  - intros https_url http_url first second.
    unfold Fixed.test_url_variations.
    rewrite (bind_pure_call_Return _ _ _ _ Hnetloc). cbn [for_each].
    rewrite (bind_Return _ _ _ _ _
               (variation_step_run session_get _ "https" ∅ s)).
    rewrite (bind_Return _ _ _ _ _
               (variation_step_run session_get _ "http" _ _)).
    assert (Hne : https_url <> http_url) by (intros [=]).
    eexists. split; [reflexivity |].
    fold https_url http_url first second.
    split; [| split].
    + rewrite lookup_insert_ne by done. apply lookup_insert_eq.
    + apply lookup_insert_eq.
    + rewrite map_size_insert_None
        by (rewrite lookup_insert_ne by done; apply lookup_empty).
      rewrite map_size_insert_None by apply lookup_empty.
      by rewrite map_size_empty.
  - by apply test_url_variations_raises.
Qed.

(** X18: the network cannot make [explore_site_structure] raise.  When
    [urlparse] accepts the base URL and [urljoin] accepts every endpoint
    of the catalog, it returns: each working endpoint has status 200, a
    length and a preview and no error; there are at most 23 of them, and
    both counts of the summary are their number.  When it raises, the
    exception is the one [urlparse] raised on the base URL or [urljoin]
    raised on an endpoint of the catalog. *)
Theorem X18_exploration_raises_only_what_url_parsing_raises {W}
    (session_get : string -> W -> outcome Fixed.response * W)
    (netloc : string -> outcome string)
    (urljoin : string -> string -> outcome string)
    (base_domain : string) (s : state W) :
  let base_url := "https://" +:+ base_domain in
  (forall netloc_of_base test_urls,
     netloc base_url = Return netloc_of_base ->
     joined urljoin base_url Fixed.endpoints_to_test test_urls ->
     exists rep s',
       Fixed.explore_site_structure session_get netloc urljoin base_domain s
       = (Return rep, s') /\
       Forall (fun e => Fixed.status_code e = Some 200 /\
                        Fixed.error e = None /\
                        is_Some (Fixed.content_length e) /\
                        is_Some (Fixed.content_preview e))
         (Fixed.working_endpoints rep) /\
       (length (Fixed.working_endpoints rep) <= 23)%nat /\
       Fixed.working_endpoints_found (Fixed.exploration_summary rep)
       = len (Fixed.working_endpoints rep) /\
       Fixed.total_endpoints_tested (Fixed.exploration_summary rep)
       = len (Fixed.working_endpoints rep)) /\
  (forall e s',
     Fixed.explore_site_structure session_get netloc urljoin base_domain s
     = (Raise e, s') ->
     netloc base_url = Raise e \/
     exists endpoint,
       endpoint ∈ Fixed.endpoints_to_test /\
       urljoin base_url endpoint = Raise e).
Proof.
  intros base_url. split.
  - intros netloc_of_base test_urls Hnetloc Hjoined.
    unfold Fixed.explore_site_structure.
    destruct (test_url_variations_returns session_get netloc base_url
                netloc_of_base s Hnetloc) as (url_tests & s1 & Hvar).
    rewrite (bind_Return _ _ _ _ _ Hvar).
    destruct (find_working_loop_answers session_get urljoin base_url
                Fixed.endpoints_to_test test_urls [] s1 Hjoined)
      as (s2 & Hfind).
    rewrite app_nil_l in Hfind.
    pose proof (working_entries_shape
                  (answers session_get test_urls (world s1))) as Hshape.
    assert (Hlen : (length (omap working_entry
                              (answers session_get test_urls (world s1)))
                    <= 23)%nat).
    { etransitivity; [apply omap_length_le |].
      rewrite answers_length.
      apply Forall2_length in Hjoined. rewrite <- Hjoined. reflexivity. }
    revert Hfind Hshape Hlen.
    generalize (omap working_entry
                  (answers session_get test_urls (world s1))).
    intros working Hfind Hshape Hlen.
    unfold Fixed.find_working_endpoints, Fixed.find_working_among.
    fold base_url.
    rewrite (bind_Return _ _ _ _ _ Hfind). unfold ret.
    eexists _, s2. split; [reflexivity |].
    cbn [Fixed.working_endpoints Fixed.exploration_summary
         Fixed.working_endpoints_found Fixed.total_endpoints_tested].
    split; [exact Hshape |]. split; [exact Hlen |]. split; [| reflexivity].
    rewrite filter_status_200; [reflexivity |].
    eapply Forall_impl; [exact Hshape |]. by intros e (? & _).
  - intros e s'. unfold Fixed.explore_site_structure. intros Hrun.
    apply bind_inv_Raise in Hrun as [Hrun | (url_tests & s1 & _ & Hrun)].
    + left. by apply test_url_variations_raises_inv in Hrun.
    + right.
      apply bind_inv_Raise in Hrun as [Hrun | (working & s2 & _ & Hrun)].
      * unfold Fixed.find_working_endpoints, Fixed.find_working_among in Hrun.
        by apply find_working_loop_raises_inv in Hrun.
      * discriminate.
Qed.

Lemma X18_witness :
  (Stub.netloc ("https://" +:+ "example.test") = Return "example.test" /\
   joined Stub.urljoin ("https://" +:+ "example.test") Fixed.endpoints_to_test
     (map (String.append "https://example.test") Fixed.endpoints_to_test) /\
   exists rep s',
     Fixed.explore_site_structure
       (Stub.session_get Stub.example_test_response) Stub.netloc Stub.urljoin
       "example.test" Stub.start = (Return rep, s') /\
     (length (Fixed.working_endpoints rep) <= 23)%nat) /\
  (exists e s',
     Fixed.explore_site_structure
       (Stub.session_get Stub.example_test_response) Stub.netloc Stub.urljoin
       "[bad" Stub.start = (Raise e, s') /\
     (Stub.netloc ("https://" +:+ "[bad") = Raise e \/
      exists endpoint,
        endpoint ∈ Fixed.endpoints_to_test /\
        Stub.urljoin ("https://" +:+ "[bad") endpoint = Raise e)).
Proof.
  assert (Hnetloc : Stub.netloc ("https://" +:+ "example.test")
                    = Return "example.test") by (vm_compute; reflexivity).
  assert (Hjoined : joined Stub.urljoin ("https://" +:+ "example.test")
                      Fixed.endpoints_to_test
                      (map (String.append "https://example.test")
                         Fixed.endpoints_to_test)).
  { unfold joined, Fixed.endpoints_to_test. cbn [map].
    repeat (constructor; [vm_compute; reflexivity |]). constructor. }
  split.
  - split; [exact Hnetloc |]. split; [exact Hjoined |].
    destruct (proj1 (X18_exploration_raises_only_what_url_parsing_raises
                       (Stub.session_get Stub.example_test_response)
                       Stub.netloc Stub.urljoin "example.test" Stub.start)
                _ _ Hnetloc Hjoined)
      as (rep & s' & Hrun & _ & Hlen & _).
    exists rep, s'. split; [exact Hrun | exact Hlen].
  - eexists _, _. split; [vm_compute; reflexivity |].
    exact (proj2 (X18_exploration_raises_only_what_url_parsing_raises
                    (Stub.session_get Stub.example_test_response)
                    Stub.netloc Stub.urljoin "[bad" Stub.start)
             _ _ ltac:(vm_compute; reflexivity)).
Defined.

(** X19: the retester of fixed_scraper.py catches every
    [RequestException]: when it raises, the exception is one the network
    raised for one of the rewritten URLs, and it is not a
    [RequestException]. *)
Theorem X19_retester_raises_only_foreign_exceptions {W}
    (session_get : string -> W -> outcome Fixed.response * W)
    (urls : list string) (s : state W) e s' :
  Fixed.scrape_with_error_handling session_get urls s = (Raise e, s') ->
  (exists u w, u ∈ urls /\
     (session_get (str_replace "http://" "https://" u) w).1 = Raise e) /\
  forall msg, e <> RequestException msg.
Proof.
  unfold Fixed.scrape_with_error_handling. intros Hrun.
  apply bind_inv_Raise in Hrun as [Hrun | (acc & s1 & _ & Hrun)].
  - by apply fixed_scrape_loop_raises in Hrun.
  - discriminate.
Qed.

Lemma X19_witness :
  exists e s',
    Fixed.scrape_with_error_handling (Stub.session_get Stub.label_too_long)
      ["http://example.test/a"] Stub.start = (Raise e, s') /\
    forall msg, e <> RequestException msg.
Proof.
  eexists _, _. split; [vm_compute; reflexivity |].
  exact (proj2 (X19_retester_raises_only_foreign_exceptions
                  (Stub.session_get Stub.label_too_long)
                  ["http://example.test/a"] Stub.start _ _
                  ltac:(vm_compute; reflexivity))).
Defined.

(** X20: the report of the retester of fixed_scraper.py is consistent:
    every input URL gave one entry, successful or failed;
    [error_summary] is the analysis of [failed_scrapes], so its
    [total_failures] is their number; a successful entry has status 200,
    a length, a preview of at most 500 characters and no error, a failed
    entry has an error, a status other than 200 or none, and neither
    length nor preview. *)
Theorem X20_retest_report_is_consistent {W}
    (session_get : string -> W -> outcome Fixed.response * W)
    (urls : list string) (s : state W) rep s' :
  Fixed.scrape_with_error_handling session_get urls s = (Return rep, s') ->
  (length (Fixed.successful_scrapes rep) + length (Fixed.failed_scrapes rep)
   = length urls)%nat /\
  Fixed.error_summary rep = Fixed._analyze_errors (Fixed.failed_scrapes rep) /\
  Fixed.total_failures (Fixed.error_summary rep)
  = len (Fixed.failed_scrapes rep) /\
  Forall successful_entry (Fixed.successful_scrapes rep) /\
  Forall failed_entry (Fixed.failed_scrapes rep).
Proof.
  unfold Fixed.scrape_with_error_handling. intros Hrun.
  apply bind_inv_Return in Hrun as (acc & s1 & Hloop & [= <- <-]).
  pose proof Hloop as Hlen.
  apply fixed_scrape_loop_length in Hlen as (ok & bad & -> & Hlen).
  apply fixed_scrape_loop_shape in Hloop
    as (ok' & bad' & [= <- <-] & Hok & Hbad).
  cbn. done.
Qed.

Lemma X20_witness :
  exists rep s',
    Fixed.scrape_with_error_handling
      (Stub.session_get Stub.not_found_response)
      ["http://example.test/a"; "http://example.test/b"] Stub.start
    = (Return rep, s') /\
    Fixed.total_failures (Fixed.error_summary rep)
    = len (Fixed.failed_scrapes rep).
Proof.
  eexists _, _. split; [vm_compute; reflexivity |].
  exact (proj1 (proj2 (proj2 (X20_retest_report_is_consistent
                  (Stub.session_get Stub.not_found_response)
                  ["http://example.test/a"; "http://example.test/b"]
                  Stub.start _ _ ltac:(vm_compute; reflexivity))))).
Defined.

(** X21: the recommendations in the report of the retester of
    fixed_scraper.py.  The "No successful scrapes" message is there
    exactly when no scrape succeeded; the 404 message exactly when a
    failed scrape has status 404, the 403 message exactly when one has
    status 403; and the list is empty exactly when a scrape succeeded and
    no failed scrape has status 404 or 403. *)
Theorem X21_recommendations_of_the_retest_report {W}
    (session_get : string -> W -> outcome Fixed.response * W)
    (urls : list string) (s : state W) rep s' :
  Fixed.scrape_with_error_handling session_get urls s = (Return rep, s') ->
  let recs := Fixed.recommendations rep in
  let has code := exists e, e ∈ Fixed.failed_scrapes rep /\
                             Fixed.status_code e = Some code in
  ("❌ No successful scrapes - the site may be down or URLs are incorrect"
     ∈ recs <-> Fixed.successful_scrapes rep = []) /\
  ("🔧 404 errors suggest URL structure has changed" ∈ recs <-> has 404) /\
  ("🚫 403 errors suggest access restrictions" ∈ recs <-> has 403) /\
  (recs = [] <->
   Fixed.successful_scrapes rep <> [] /\ ~ has 404 /\ ~ has 403).
Proof.
  intros Hrun recs has. subst recs has. cbv beta.
  unfold Fixed.scrape_with_error_handling in Hrun.
  apply bind_inv_Return in Hrun as (acc & s1 & _ & [= <- <-]).
  cbn [Fixed.recommendations Fixed.failed_scrapes Fixed.successful_scrapes].
  rewrite fixed_recommendations_eq.
  cbn [Fixed.error_summary Fixed.successful_scrapes].
  rewrite <- !fixed_status_counted_iff.
  generalize (default 0 (Fixed.status_codes (Fixed._analyze_errors acc.2)
                         !! KInt 404)).
  generalize (default 0 (Fixed.status_codes (Fixed._analyze_errors acc.2)
                         !! KInt 403)).
  intros c403 c404. unfold fixed_msg_no_success.
  destruct acc.1 as [|e0 ok]; repeat case_bool_decide; cbn [app];
    (split; [| split; [| split]]);
    rewrite ?elem_of_cons, ?elem_of_nil;
    (split; [intros Hin | intros Hcond]);
    repeat match goal with
           | H : _ \/ _ |- _ => destruct H
           | H : _ /\ _ |- _ => destruct H
           end;
    try discriminate; try done; try lia;
    try (split; [done | split; lia]);
    repeat first [ left; reflexivity | right ].
Qed.

Lemma X21_witness :
  exists rep s',
    Fixed.scrape_with_error_handling
      (Stub.session_get Stub.not_found_response)
      ["http://example.test/a"] Stub.start = (Return rep, s') /\
    ("🔧 404 errors suggest URL structure has changed"
       ∈ Fixed.recommendations rep <->
     exists e, e ∈ Fixed.failed_scrapes rep /\
               Fixed.status_code e = Some 404).
Proof.
  eexists _, _. split; [vm_compute; reflexivity |].
  exact (proj1 (proj2 (X21_recommendations_of_the_retest_report
                  (Stub.session_get Stub.not_found_response)
                  ["http://example.test/a"] Stub.start _ _
                  ltac:(vm_compute; reflexivity)))).
Defined.

(** ** [main] of fixed_scraper.py *)

Section Silent.
Context {W : Type}.
Implicit Types s : state W.

Lemma silent_ret {A} (a : A) : silent (ret a : M W A).
Proof. by intros s. Qed.

Lemma silent_raise {A} e : silent (raise e : M W A).
Proof. by intros s. Qed.

Lemma silent_pure_call {A} (o : outcome A) : silent (pure_call o : M W A).
Proof. by intros s. Qed.

Lemma silent_call {A} (op : W -> outcome A * W) : silent (call op).
Proof. intros s. unfold call. by destruct (op (world s)). Qed.

Lemma silent_bind {A B} (m : M W A) (k : A -> M W B) :
  silent m -> (forall a, silent (k a)) -> silent (bind m k).
Proof.
  intros Hm Hk s. unfold bind. specialize (Hm s).
  destruct (m s) as [[a|e] s1]; simpl in *; [| done].
  by rewrite Hk.
Qed.

Lemma silent_try_except {A} (body : M W A) (handler : exn -> M W A) :
  silent body -> (forall e, silent (handler e)) ->
  silent (try_except body handler).
Proof.
  intros Hm Hk s. unfold try_except. specialize (Hm s).
  destruct (body s) as [[a|e] s1]; simpl in *; [done |].
  by rewrite Hk.
Qed.

Lemma silent_for_each {A S} (xs : list A) (body : A -> S -> M W S) acc :
  (forall x acc, silent (body x acc)) -> silent (for_each xs body acc).
Proof.
  intros Hbody. revert acc. induction xs as [|x xs IH]; intros acc; simpl.
  - apply silent_ret.
  - apply silent_bind; [apply Hbody | apply IH].
Qed.

Variable session_get : string -> W -> outcome Fixed.response * W.
Variable netloc : string -> outcome string.
Variable urljoin : string -> string -> outcome string.

Lemma silent_explore_site_structure base_domain :
  silent (Fixed.explore_site_structure session_get netloc urljoin base_domain).
Proof.
  unfold Fixed.explore_site_structure, Fixed.test_url_variations,
    Fixed.find_working_endpoints, Fixed.find_working_among.
  apply silent_bind.
  - apply silent_bind; [apply silent_pure_call |]. intros base.
    apply silent_for_each. intros protocol results.
    unfold Fixed.variation_step. apply silent_try_except.
    + apply silent_bind; [apply silent_call | intros; apply silent_ret].
    + intros e. apply silent_ret.
  - intros url_tests. apply silent_bind; [| intros; apply silent_ret].
    apply silent_for_each. intros endpoint working.
    unfold Fixed.endpoint_step.
    apply silent_bind; [apply silent_pure_call |]. intros test_url.
    apply silent_try_except.
    + apply silent_bind; [apply silent_call |].
      intros response. case_bool_decide; apply silent_ret.
    + intros e. apply silent_ret.
Qed.

Lemma silent_scrape_with_error_handling urls :
  silent (Fixed.scrape_with_error_handling session_get urls).
Proof.
  unfold Fixed.scrape_with_error_handling.
  apply silent_bind; [| intros; apply silent_ret].
  apply silent_for_each. intros u acc.
  unfold Fixed.scrape_step. apply silent_try_except.
  - apply silent_bind; [apply silent_call |].
    intros response. case_bool_decide; apply silent_ret.
  - intros []; first [apply silent_ret | apply silent_raise].
Qed.
End Silent.

(** X22: [Fixed.main] prints nothing before the persistence step and,
    when [urlparse] and [urljoin] accept the URLs of the script's own
    host and [requests] raises nothing but its own exceptions, reaches it
    whatever the probes answer: if the write then succeeds, [main] returns
    and the line "Results saved" is the only one printed. *)
Theorem X22_fixed_main_returns_when_write_succeeds {W}
    (session_get : string -> W -> outcome Fixed.response * W)
    (netloc : string -> outcome string)
    (urljoin : string -> string -> outcome string)
    (dump_json : string -> Fixed.SavedResults -> W -> outcome unit * W)
    (netloc_of_base : string) (test_urls : list string) (s : state W) :
  netloc ("https://" +:+ "www.d2pbuyersguide.com") = Return netloc_of_base ->
  joined urljoin ("https://" +:+ "www.d2pbuyersguide.com")
    Fixed.endpoints_to_test test_urls ->
  only_request_exceptions session_get ->
  (forall doc w, exists w',
     dump_json "/workspace/scraping_results.json" doc w = (Return tt, w')) ->
  exists s',
    Fixed.main session_get netloc urljoin dump_json s = (Return tt, s') /\
    stdout s'
    = stdout s ++ [nl +:+ "💾 Results saved to /workspace/scraping_results.json"].
Proof.
  intros Hnetloc Hjoined Honly Hdump. unfold Fixed.main.
  destruct (explore_site_structure_returns session_get netloc urljoin
              "www.d2pbuyersguide.com" netloc_of_base test_urls s
              Hnetloc Hjoined) as (site & s1 & Hsite & _).
  pose proof (silent_explore_site_structure session_get netloc urljoin
                "www.d2pbuyersguide.com" s) as Hout1.
  rewrite Hsite in Hout1. simpl in Hout1.
  rewrite (bind_Return _ _ _ _ _ Hsite).
  destruct (fixed_scrape_returns session_get Fixed.original_urls s1 Honly)
    as (rep & s2 & Hrep).
  pose proof (silent_scrape_with_error_handling session_get
                Fixed.original_urls s1) as Hout2.
  rewrite Hrep in Hout2. simpl in Hout2.
  rewrite (bind_Return _ _ _ _ _ Hrep).
  unfold Fixed.save_results, bind, call, print.
  destruct (Hdump {| Fixed.site_analysis := site;
                     Fixed.scrape_results := rep |} (world s2))
    as (w' & ->).
  eexists. split; [reflexivity |]. simpl. by rewrite Hout2, Hout1.
Qed.

Lemma X22_witness :
  exists s',
    Fixed.main (Stub.session_get Stub.not_found_response) Stub.netloc
      Stub.urljoin Stub.dump_ok Stub.start = (Return tt, s') /\
    stdout s'
    = stdout Stub.start
      ++ [nl +:+ "💾 Results saved to /workspace/scraping_results.json"].
Proof.
  apply (X22_fixed_main_returns_when_write_succeeds
           (Stub.session_get Stub.not_found_response) Stub.netloc
           Stub.urljoin Stub.dump_ok "www.d2pbuyersguide.com"
           (map (String.append "https://www.d2pbuyersguide.com")
              Fixed.endpoints_to_test)
           Stub.start).
  - vm_compute. reflexivity.
  - unfold joined, Fixed.endpoints_to_test. cbn [map].
    repeat (constructor; [vm_compute; reflexivity |]). constructor.
  - intros u w e. discriminate.
  - intros doc w. eexists. reflexivity.
Defined.
